(** * Request instrumentation middleware and load harness

    A shallow embedding of [app/main.py] (the [monitor_requests] middleware
    and the two handlers it wraps) and of [load_test.py] ([make_request] and
    [run_load_test]), with the properties the specification states about
    them.

    Conventions of the embedding.
    - Python code that can raise is written in a state-and-exception monad
      [py St]: a computation takes the state of its process and gives back
      an [outcome] (a value or a raised exception) and the state it left.
      [try_except] runs the handler in the state the body left behind, as
      Python does: what the body mutated before raising stays mutated.
    - [time.time()] is the wall clock: the successive readings a process
      makes are an arbitrary sequence of the world (nothing makes it
      monotonic). Seconds are exact rationals in canonical form ([Qc]),
      which leaves the rounding of binary64 arithmetic out; where a
      property of the aggregation depends on that rounding, the same
      statements of the source are taken with binary64 durations
      ([fold64], on the floats of [SpecFloat] with 53 bits of mantissa).
    - [float('inf')] is the extra point [PInf] of [pyfloat]. *)

From Stdlib Require Import ZArith QArith Qcanon List Permutation Lia Lqa SpecFloat.
From stdpp Require Import gmap strings list numbers.

Local Open Scope Z_scope.

(** ** Python values shared by the two programs *)

(** An instance of [Exception]: what [except Exception] catches. *)
Record Exception := { exc_class : string; exc_message : string }.

Inductive outcome (A : Type) : Type :=
| Returns (a : A)
| Raises (e : Exception).
Arguments Returns {A} a.
Arguments Raises {A} e.

(** A float that may be [float('inf')]. *)
Inductive pyfloat : Type :=
| Fin (q : Qc)
| PInf.

(** An f-string, kept as its pieces: the literal text and the formatted
    fields ([{x}] for a string, an int or another number, [{x:.4f}] for a
    float). *)
Inductive piece : Type :=
| Lit (s : string)
| FStr (s : string)
| FInt (n : Z)
| FNum (x : Qc)
| FFix (digits : nat) (x : pyfloat).

Record LogRecord := { levelname : string; message : list piece }.

(** The records of a log that have a given level. *)
Definition at_level (level : string) (log : list LogRecord) : list LogRecord :=
  List.filter (fun r => String.eqb (levelname r) level) log.

Definition Qc_ltb (x y : Qc) : bool :=
  match (x ?= y)%Qc with Lt => true | _ => false end.

Definition pyfloat_ltb (x y : pyfloat) : bool :=
  match x, y with
  | Fin a, Fin b => Qc_ltb a b
  | Fin _, PInf => true
  | PInf, _ => false
  end.

(** [min(a, b)] and [max(a, b)] of Python: the first argument unless the
    second is strictly smaller (larger). *)
Definition py_min (a b : pyfloat) : pyfloat := if pyfloat_ltb b a then b else a.
Definition py_max (a b : Qc) : Qc := if Qc_ltb a b then b else a.

(** ** The monad of Python computations *)

Section Py.
Context {St : Type}.

Definition py (A : Type) : Type := St -> outcome A * St.

Definition ret {A} (a : A) : py A := fun s => (Returns a, s).

Definition raise {A} (e : Exception) : py A := fun s => (Raises e, s).

Definition bind {A B} (m : py A) (k : A -> py B) : py B :=
  fun s =>
    match m s with
    | (Returns a, s') => k a s'
    | (Raises e, s') => (Raises e, s')
    end.

Definition try_except {A} (body : py A) (handler : Exception -> py A) : py A :=
  fun s =>
    match body s with
    | (Returns a, s') => (Returns a, s')
    | (Raises e, s') => handler e s'
    end.

Definition modify (f : St -> St) : py unit := fun s => (Returns tt, f s).
End Py.
Arguments py St A : clear implicits.

Notation "'let*' x ':=' m 'in' k" := (bind m (fun x => k))
  (at level 10, x name, m at level 100, k at level 200).
Notation "m >> k" := (bind m (fun _ => k))
  (at level 100, k at level 200, right associativity).

(** ** load_test.py *)

Module load_test.

Definition BASE_URL : string := "http://localhost:8000".
Definition ENDPOINTS : list string := ["/"; "/api/data"]%string.

(** The response of [requests.get], of which only the status is read. *)
Record Response := { status_code : Z }.

(** The dict [make_request] returns. *)
Record ProbeResult := { status : Z; duration : Qc; success : bool }.

(** What one call of [make_request] sees of the world: its draw of
    [random.choice], its readings of the clock, what [requests.get] does
    with the URL, and the log it writes to. *)
Record Worker := {
  w_draw : nat;
  w_time : nat -> Qc;
  w_reads : nat;
  w_get : string -> outcome Response;
  w_log : list LogRecord }.

Definition random_choice (l : list string) : py Worker string :=
  fun w =>
    match nth_error l (w_draw w mod length l)%nat with
    | Some x => (Returns x, w)
    | None =>
        (Raises {| exc_class := "IndexError";
                   exc_message := "Cannot choose from an empty sequence" |}, w)
    end.

Definition time_time : py Worker Qc :=
  fun w =>
    (Returns (w_time w (w_reads w)),
     {| w_draw := w_draw w; w_time := w_time w; w_reads := S (w_reads w);
        w_get := w_get w; w_log := w_log w |}).

Definition requests_get (url : string) : py Worker Response :=
  fun w => (w_get w url, w).

Definition logger_log (level : string) (msg : list piece) : py Worker unit :=
  modify (fun w =>
    {| w_draw := w_draw w; w_time := w_time w; w_reads := w_reads w;
       w_get := w_get w;
       w_log := w_log w ++ [{| levelname := level; message := msg |}] |}).

(** The dict of the [except] branch of [make_request]. *)
Definition transport_failure : ProbeResult :=
  {| status := 0; duration := 0%Qc; success := false |}.

Definition make_request : py Worker ProbeResult :=
  let* endpoint := random_choice ENDPOINTS in
  let url := BASE_URL +:+ endpoint in
  try_except
    (let* start_time := time_time in
     let* response := requests_get url in
     let* now := time_time in
     let duration := (now - start_time)%Qc in
     logger_log "INFO"
       [Lit "Request to "; FStr endpoint; Lit " - Status: ";
        FInt (status_code response); Lit " - Duration: ";
        FFix 4 (Fin duration); Lit "s"] >>
     ret {| status := status_code response;
            duration := duration;
            success := status_code response <? 400 |})
    (fun e =>
     logger_log "ERROR"
       [Lit "Request to "; FStr endpoint; Lit " failed: "; FStr (exc_message e)] >>
     ret transport_failure).

(** The dict [results] of [run_load_test] before the averages are added. *)
Record LoadStatistics := {
  total_requests : Z;
  successful_requests : Z;
  failed_requests : Z;
  total_duration : Qc;
  min_duration : pyfloat;
  max_duration : Qc }.

(** [results] with its two last keys. *)
Record Report := {
  counters : LoadStatistics;
  avg_duration : Qc;
  success_rate : Qc }.

Definition initial_results : LoadStatistics :=
  {| total_requests := 0; successful_requests := 0; failed_requests := 0;
     total_duration := 0%Qc; min_duration := PInf; max_duration := 0%Qc |}.

(** The statements of the [try] block that follow [future.result()]. *)
Definition fold (results : LoadStatistics) (result : ProbeResult) : LoadStatistics :=
  {| total_requests := total_requests results + 1;
     successful_requests :=
       if success result then successful_requests results + 1
       else successful_requests results;
     failed_requests :=
       if success result then failed_requests results
       else failed_requests results + 1;
     total_duration := (total_duration results + duration result)%Qc;
     min_duration := py_min (min_duration results) (Fin (duration result));
     max_duration := py_max (max_duration results) (duration result) |}.

(** The [except] block of the loop over the futures. *)
Definition count_failure (results : LoadStatistics) : LoadStatistics :=
  {| total_requests := total_requests results;
     successful_requests := successful_requests results;
     failed_requests := failed_requests results + 1;
     total_duration := total_duration results;
     min_duration := min_duration results;
     max_duration := max_duration results |}.

(** The process that runs [run_load_test]: the readings of the clock by
    the main thread, the worlds of the tasks it submits (in submission
    order), its log and the dict [results]. *)
Record Harness := {
  h_time : nat -> Qc;
  h_reads : nat;
  h_workers : nat -> Worker;
  h_submitted : nat;
  h_log : list LogRecord;
  results : LoadStatistics }.

Definition with_results (f : LoadStatistics -> LoadStatistics) (h : Harness) : Harness :=
  {| h_time := h_time h; h_reads := h_reads h; h_workers := h_workers h;
     h_submitted := h_submitted h; h_log := h_log h; results := f (results h) |}.

Definition h_time_time : py Harness Qc :=
  fun h =>
    (Returns (h_time h (h_reads h)),
     {| h_time := h_time h; h_reads := S (h_reads h); h_workers := h_workers h;
        h_submitted := h_submitted h; h_log := h_log h; results := results h |}).

Definition h_logger_log (level : string) (msg : list piece) : py Harness unit :=
  modify (fun h =>
    {| h_time := h_time h; h_reads := h_reads h; h_workers := h_workers h;
       h_submitted := h_submitted h;
       h_log := h_log h ++ [{| levelname := level; message := msg |}];
       results := results h |}).

(** A future, once waited for: what its task returned or raised. *)
Definition Future : Type := outcome ProbeResult.

(** [executor.submit(make_request)]: the next task runs in its own world. *)
Definition executor_submit : py Harness Future :=
  fun h =>
    (Returns (fst (make_request (h_workers h (h_submitted h)))),
     {| h_time := h_time h; h_reads := h_reads h; h_workers := h_workers h;
        h_submitted := S (h_submitted h); h_log := h_log h; results := results h |}).

(** [future.result()] gives the value back or raises the task's exception. *)
Definition future_result (future : Future) : py Harness ProbeResult :=
  fun h => (future, h).

(** [[executor.submit(make_request) for _ in range(n)]] *)
Fixpoint submit_batch (n : nat) : py Harness (list Future) :=
  match n with
  | O => ret []
  | S n' =>
      let* future := executor_submit in
      let* futures := submit_batch n' in
      ret (future :: futures)
  end.

(** One turn of [for future in futures]. *)
Definition collect (future : Future) : py Harness unit :=
  try_except
    (let* result := future_result future in
     modify (with_results (fun results => fold results result)))
    (fun e =>
     h_logger_log "ERROR" [Lit "Error in load test: "; FStr (exc_message e)] >>
     modify (with_results count_failure)).

Fixpoint collect_all (futures : list Future) : py Harness unit :=
  match futures with
  | [] => ret tt
  | future :: rest => collect future >> collect_all rest
  end.

(** [time.sleep]: time passes, which the next reading of the clock shows. *)
Definition time_sleep (seconds : Qc) : py Harness unit := ret tt.

(** [while time.time() < end_time: ...], by at most [fuel] tests of the
    condition; [None] when they do not suffice. *)
Fixpoint while_loop (fuel : nat) (concurrent_users : Z) (end_time : Qc)
    (h : Harness) : option (outcome unit * Harness) :=
  match fuel with
  | O => None
  | S fuel' =>
      match h_time_time h with
      | (Raises e, h1) => Some (Raises e, h1)
      | (Returns now, h1) =>
          if Qc_ltb now end_time then
            match (let* futures := submit_batch (Z.to_nat concurrent_users) in
                   collect_all futures >>
                   time_sleep (Q2Qc (1 # 10))) h1 with
            | (Raises e, h2) => Some (Raises e, h2)
            | (Returns _, h2) => while_loop fuel' concurrent_users end_time h2
            end
          else Some (Returns tt, h1)
      end
  end.

(** [ThreadPoolExecutor(max_workers=n)] refuses [n <= 0]. *)
Definition ThreadPoolExecutor (max_workers : Z) : py Harness unit :=
  if max_workers <=? 0
  then raise {| exc_class := "ValueError";
                exc_message := "max_workers must be greater than 0" |}
  else ret tt.

(** The block under [# Calculate averages]. *)
Definition finalize (results : LoadStatistics) : Report :=
  if 0 <? total_requests results then
    {| counters := results;
       avg_duration := (total_duration results / Qc_of_Z (total_requests results))%Qc;
       success_rate :=
         (Qc_of_Z (successful_requests results) / Qc_of_Z (total_requests results)
          * Qc_of_Z 100)%Qc |}
  else
    {| counters := results; avg_duration := 0%Qc; success_rate := 0%Qc |}.

Definition log_summary (r : Report) : py Harness unit :=
  h_logger_log "INFO" [Lit (String (Ascii.ascii_of_nat 10) "=== Load Test Summary ===")] >>
  h_logger_log "INFO" [Lit "Total Requests: "; FInt (total_requests (counters r))] >>
  h_logger_log "INFO" [Lit "Successful Requests: "; FInt (successful_requests (counters r))] >>
  h_logger_log "INFO" [Lit "Failed Requests: "; FInt (failed_requests (counters r))] >>
  h_logger_log "INFO" [Lit "Success Rate: "; FFix 2 (Fin (success_rate r)); Lit "%"] >>
  h_logger_log "INFO" [Lit "Average Duration: "; FFix 4 (Fin (avg_duration r)); Lit "s"] >>
  h_logger_log "INFO" [Lit "Min Duration: "; FFix 4 (min_duration (counters r)); Lit "s"] >>
  h_logger_log "INFO" [Lit "Max Duration: "; FFix 4 (Fin (max_duration (counters r))); Lit "s"].

Definition run_load_test (fuel : nat) (concurrent_users : Z) (duration_seconds : Qc)
    (h : Harness) : option (outcome Report * Harness) :=
  match (h_logger_log "INFO"
           [Lit "Starting load test with "; FInt concurrent_users;
            Lit " users for "; FNum duration_seconds; Lit " seconds"] >>
         modify (with_results (fun _ => initial_results)) >>
         let* now := h_time_time in
         let end_time := (now + duration_seconds)%Qc in
         ThreadPoolExecutor concurrent_users >>
         ret end_time) h with
  | (Raises e, h1) => Some (Raises e, h1)
  | (Returns end_time, h1) =>
      match while_loop fuel concurrent_users end_time h1 with
      | None => None
      | Some (Raises e, h2) => Some (Raises e, h2)
      | Some (Returns _, h2) =>
          let report := finalize (results h2) in
          Some ((log_summary report >> ret report) h2)
      end
  end.

(** *** Notions used to state the properties of load_test.py *)

(** The endpoint the draw of a worker selects. *)
Definition chosen (w : Worker) : string :=
  nth (w_draw w mod length ENDPOINTS)%nat ENDPOINTS "/"%string.

(** The sum of the durations and the number of successes of a list of
    results. *)
Definition sum_durations (rs : list ProbeResult) : Qc :=
  fold_right (fun r acc => (duration r + acc)%Qc) 0%Qc rs.

Definition count_success (rs : list ProbeResult) : Z :=
  Z.of_nat (length (List.filter success rs)).

(** The GET of a worker fails in transport: [requests.get] raises. *)
Definition transport_fails (w : Worker) : Prop :=
  exists e, w_get w (BASE_URL +:+ chosen w) = Raises e.

(** The clock was set back between the two readings of a worker. *)
Definition clock_steps_back (w : Worker) : Prop :=
  (w_time w (S (w_reads w)) < w_time w (w_reads w))%Qc.

(** The results [rs] are the ones the tasks return in the worlds [ws]. *)
Definition probes (ws : list Worker) (rs : list ProbeResult) : Prop :=
  Forall2 (fun w r => fst (make_request w) = Returns r) ws rs.

(** A running minimum that no negative duration has entered. *)
Definition nonneg (m : pyfloat) : Prop :=
  match m with Fin q => (0 <= q)%Qc | PInf => True end.

(** The result the task of a worker returns. *)
Definition probe (w : Worker) : ProbeResult :=
  match fst (make_request w) with
  | Returns r => r
  | Raises _ => transport_failure
  end.

(** The results of the [n] tasks submitted from the task number [first]. *)
Fixpoint batch (workers : nat -> Worker) (first n : nat) : list ProbeResult :=
  match n with
  | O => []
  | S n' => probe (workers first) :: batch workers (S first) n'
  end.

(** The harness after [n] more submissions. *)
Definition submitted (n : nat) (h : Harness) : Harness :=
  {| h_time := h_time h; h_reads := h_reads h; h_workers := h_workers h;
     h_submitted := n + h_submitted h; h_log := h_log h; results := results h |}.

(** The state after one turn of the loop whose test passed: one more
    reading of the clock, [n] more tasks, their results folded. *)
Definition turn (n : nat) (h : Harness) : Harness :=
  {| h_time := h_time h; h_reads := S (h_reads h); h_workers := h_workers h;
     h_submitted := n + h_submitted h; h_log := h_log h;
     results := fold_left fold (batch (h_workers h) (h_submitted h) n) (results h) |}.

(** [k] turns in a row. *)
Fixpoint turns (k n : nat) (h : Harness) : Harness :=
  match k with
  | O => h
  | S k' => turns k' n (turn n h)
  end.

(** The harness after one more reading of the clock. *)
Definition tick (h : Harness) : Harness :=
  {| h_time := h_time h; h_reads := S (h_reads h); h_workers := h_workers h;
     h_submitted := h_submitted h; h_log := h_log h; results := results h |}.

(** The state in which the loop is entered. *)
Definition started (concurrent_users : Z) (duration_seconds : Qc) (h : Harness) : Harness :=
  {| h_time := h_time h; h_reads := S (h_reads h); h_workers := h_workers h;
     h_submitted := h_submitted h;
     h_log := h_log h ++
       [{| levelname := "INFO";
           message := [Lit "Starting load test with "; FInt concurrent_users;
                       Lit " users for "; FNum duration_seconds;
                       Lit " seconds"] |}];
     results := initial_results |}.

(** The order of floats that may be [float('inf')]. *)
Definition pyfloat_le (x y : pyfloat) : Prop :=
  match x, y with
  | Fin a, Fin b => (a <= b)%Qc
  | _, PInf => True
  | PInf, Fin _ => False
  end.


(** A worker whose service is replaced by another one. *)
Definition with_get (get : string -> outcome Response) (w : Worker) : Worker :=
  {| w_draw := w_draw w; w_time := w_time w; w_reads := w_reads w;
     w_get := get; w_log := w_log w |}.

(** *** The aggregation on binary64 floats

    The durations of the source are Python floats. The statements of the
    aggregation are given here a second time with the durations as
    binary64 floats: [+=] rounds to the nearest float, [min] and [max]
    compare floats. The int [0] of the source is the float [0.0] and
    [float('inf')] the positive infinity. *)

Definition f64_add (x y : spec_float) : spec_float := SFadd 53 1024 x y.

(** [min(a, b)] and [max(a, b)] on floats: the first argument unless the
    second is strictly smaller (larger). *)
Definition f64_min (a b : spec_float) : spec_float := if SFltb b a then b else a.
Definition f64_max (a b : spec_float) : spec_float := if SFltb a b then b else a.

Record ProbeResult64 := {
  status64 : Z;
  duration64 : spec_float;
  success64 : bool }.

Record LoadStatistics64 := {
  total_requests64 : Z;
  successful_requests64 : Z;
  failed_requests64 : Z;
  total_duration64 : spec_float;
  min_duration64 : spec_float;
  max_duration64 : spec_float }.

Definition initial_results64 : LoadStatistics64 :=
  {| total_requests64 := 0; successful_requests64 := 0; failed_requests64 := 0;
     total_duration64 := S754_zero false;
     min_duration64 := S754_infinity false;
     max_duration64 := S754_zero false |}.

(** The statements of the [try] block that follow [future.result()]. *)
Definition fold64 (results : LoadStatistics64) (result : ProbeResult64)
    : LoadStatistics64 :=
  {| total_requests64 := total_requests64 results + 1;
     successful_requests64 :=
       if success64 result then successful_requests64 results + 1
       else successful_requests64 results;
     failed_requests64 :=
       if success64 result then failed_requests64 results
       else failed_requests64 results + 1;
     total_duration64 := f64_add (total_duration64 results) (duration64 result);
     min_duration64 := f64_min (min_duration64 results) (duration64 result);
     max_duration64 := f64_max (max_duration64 results) (duration64 result) |}.







End load_test.

(** ** app/main.py *)

Module main.

(** The body of a JSON response. *)
#[local] Unset Elimination Schemes.
Inductive json : Type :=
| JStr (s : string)
| JInt (n : Z)
| JList (l : list json)
| JObj (fields : list (string * json)).
#[local] Set Elimination Schemes.

(** What the middleware reads of a request: [request.method] and
    [request.url.path]. *)
Record Request := { method : string; url_path : string }.

Record Response := { status_code : Z; content : json }.

Definition JSONResponse (status_code : Z) (content : json) : Response :=
  {| status_code := status_code; content := content |}.

(** The process of the service: the readings of the clock, the children of
    the two metrics by their label values ([REQUEST_COUNT] by method,
    endpoint and http_status; [REQUEST_LATENCY] by method and endpoint, each
    child with the values observed so far) and the log. *)
Record App := {
  a_time : nat -> Qc;
  a_reads : nat;
  REQUEST_COUNT : gmap (string * string * Z) nat;
  REQUEST_LATENCY : gmap (string * string) (list Qc);
  a_log : list LogRecord }.

Definition time_time : py App Qc :=
  fun a =>
    (Returns (a_time a (a_reads a)),
     {| a_time := a_time a; a_reads := S (a_reads a);
        REQUEST_COUNT := REQUEST_COUNT a; REQUEST_LATENCY := REQUEST_LATENCY a;
        a_log := a_log a |}).

(** [REQUEST_COUNT.labels(method=.., endpoint=.., http_status=..).inc()] *)
Definition REQUEST_COUNT_inc (method endpoint : string) (http_status : Z) : py App unit :=
  modify (fun a =>
    {| a_time := a_time a; a_reads := a_reads a;
       REQUEST_COUNT :=
         <[(method, endpoint, http_status) :=
             S (default 0%nat (REQUEST_COUNT a !! (method, endpoint, http_status)))]>
           (REQUEST_COUNT a);
       REQUEST_LATENCY := REQUEST_LATENCY a;
       a_log := a_log a |}).

(** [REQUEST_LATENCY.labels(method=.., endpoint=..).observe(x)] *)
Definition REQUEST_LATENCY_observe (method endpoint : string) (x : Qc) : py App unit :=
  modify (fun a =>
    {| a_time := a_time a; a_reads := a_reads a;
       REQUEST_COUNT := REQUEST_COUNT a;
       REQUEST_LATENCY :=
         <[(method, endpoint) :=
             default [] (REQUEST_LATENCY a !! (method, endpoint)) ++ [x]]>
           (REQUEST_LATENCY a);
       a_log := a_log a |}).

Definition logger_log (level : string) (msg : list piece) : py App unit :=
  modify (fun a =>
    {| a_time := a_time a; a_reads := a_reads a;
       REQUEST_COUNT := REQUEST_COUNT a; REQUEST_LATENCY := REQUEST_LATENCY a;
       a_log := a_log a ++ [{| levelname := level; message := msg |}] |}).

(** [await call_next(request)]: the rest of the application answers or
    raises. *)
Definition await (result : outcome Response) : py App Response :=
  fun a => (result, a).

Definition monitor_requests (request : Request)
    (call_next : Request -> outcome Response) : py App Response :=
  let* start_time := time_time in
  try_except
    (let* response := await (call_next request) in
     let* now := time_time in
     let process_time := (now - start_time)%Qc in
     REQUEST_COUNT_inc (method request) (url_path request) (status_code response) >>
     REQUEST_LATENCY_observe (method request) (url_path request) process_time >>
     logger_log "INFO"
       [Lit "Request: "; FStr (method request); Lit " "; FStr (url_path request);
        Lit " - Status: "; FInt (status_code response);
        Lit " - Latency: "; FFix 4 (Fin process_time); Lit "s"] >>
     ret response)
    (fun e =>
     logger_log "ERROR" [Lit "Error processing request: "; FStr (exc_message e)] >>
     ret (JSONResponse 500 (JObj [("detail", JStr "Internal Server Error")]))).

(** The two handlers. [root] answers at once; [get_data] sleeps, then raises
    when its draw of [random.random()] is below 0.1. *)
Definition root : outcome Response :=
  Returns (JSONResponse 200
             (JObj [("message", JStr "Welcome to the FastAPI Monitoring Demo")])).

Definition get_data (draw : Qc) : outcome Response :=
  if Qc_ltb draw (Q2Qc (1 # 10))
  then Raises {| exc_class := "ValueError"; exc_message := "Random error occurred" |}
  else Returns (JSONResponse 200
                  (JObj [("data", JList [JInt 1; JInt 2; JInt 3; JInt 4; JInt 5])])).

(** The path templates the application declares: the two [@app.get] routes
    and the mount of the metrics application. *)
Definition route_templates : list string := ["/"; "/api/data"; "/metrics"]%string.

(** A request that no route matches is answered 404 by the framework. *)
Definition not_found : outcome Response :=
  Returns (JSONResponse 404 (JObj [("detail", JStr "Not Found")])).

(** The service handling requests one after the other, each with what the
    rest of the application does for it. *)
Fixpoint serve (cycles : list (Request * (Request -> outcome Response)))
    (a : App) : list (outcome Response) * App :=
  match cycles with
  | [] => ([], a)
  | (request, call_next) :: rest =>
      let (r, a') := monitor_requests request call_next a in
      let (rs, a'') := serve rest a' in
      (r :: rs, a'')
  end.

(** A process that has served nothing yet. *)
Definition start (clock : nat -> Qc) : App :=
  {| a_time := clock; a_reads := 0; REQUEST_COUNT := ∅; REQUEST_LATENCY := ∅;
     a_log := [] |}.

(** The value of a counter child and the number of observations of a
    histogram child, as a scrape reports them (an absent child counts 0). *)
Definition counter_value (a : App) (method endpoint : string) (http_status : Z) : nat :=
  default 0%nat (REQUEST_COUNT a !! (method, endpoint, http_status)).

Definition histogram_count (a : App) (method endpoint : string) : nat :=
  length (default [] (REQUEST_LATENCY a !! (method, endpoint))).

(** *** Notions used to state the properties of app/main.py *)

(** The response of the [except] branch of [monitor_requests]. *)
Definition internal_server_error : Response :=
  JSONResponse 500 (JObj [("detail", JStr "Internal Server Error")]).

(** The process after the cycle of a request whose handler returned
    [response]: two more readings of the clock, one child of the counter
    grown by one, one child of the histogram with one more observation, and
    one more record in the log. *)
Definition observed (request : Request) (response : Response) (a : App) : App :=
  let process_time := (a_time a (S (a_reads a)) - a_time a (a_reads a))%Qc in
  {| a_time := a_time a;
     a_reads := S (S (a_reads a));
     REQUEST_COUNT :=
       <[(method request, url_path request, status_code response) :=
           S (counter_value a (method request) (url_path request)
                (status_code response))]> (REQUEST_COUNT a);
     REQUEST_LATENCY :=
       <[(method request, url_path request) :=
           default [] (REQUEST_LATENCY a !! (method request, url_path request))
           ++ [process_time]]> (REQUEST_LATENCY a);
     a_log := a_log a ++
       [{| levelname := "INFO";
           message :=
             [Lit "Request: "; FStr (method request); Lit " ";
              FStr (url_path request); Lit " - Status: ";
              FInt (status_code response); Lit " - Latency: ";
              FFix 4 (Fin process_time); Lit "s"] |}] |}.

(** The process after the cycle of a request whose handler raised [e]: one
    more reading of the clock and one ERROR record; the metrics are as they
    were. *)
Definition errored (e : Exception) (a : App) : App :=
  {| a_time := a_time a;
     a_reads := S (a_reads a);
     REQUEST_COUNT := REQUEST_COUNT a;
     REQUEST_LATENCY := REQUEST_LATENCY a;
     a_log := a_log a ++
       [{| levelname := "ERROR";
           message := [Lit "Error processing request: ";
                       FStr (exc_message e)] |}] |}.

(** Whether a cycle is a request with the given method and path whose
    handler returned. *)
Definition returned_at (m endpoint : string)
    (cycle : Request * (Request -> outcome Response)) : bool :=
  match cycle.2 cycle.1 with
  | Returns _ =>
      bool_decide (method cycle.1 = m /\ url_path cycle.1 = endpoint)
  | Raises _ => false
  end.

(** Whether a cycle is a request with the given method and path whose
    handler returned a response of the given status. *)
Definition returned_with (m endpoint : string) (status : Z)
    (cycle : Request * (Request -> outcome Response)) : bool :=
  match cycle.2 cycle.1 with
  | Returns response =>
      bool_decide (method cycle.1 = m /\ url_path cycle.1 = endpoint
                   /\ status_code response = status)
  | Raises _ => false
  end.

(** Whether the handler of a cycle returned. *)
Definition returned (cycle : Request * (Request -> outcome Response)) : bool :=
  match cycle.2 cycle.1 with
  | Returns _ => true
  | Raises _ => false
  end.

(** What the client of a cycle receives. *)
Definition answer (cycle : Request * (Request -> outcome Response)) : outcome Response :=
  match cycle.2 cycle.1 with
  | Returns response => Returns response
  | Raises _ => Returns internal_server_error
  end.

(** *** The configuration of Jaeger when the module is loaded *)

(** An exporter, known by the agent it sends to, and a span processor,
    known by its exporter. *)
Record Exporter := { agent_host_name : string; agent_port : Z }.

Record SpanProcessor := { span_exporter : Exporter }.

(** The tracer provider (its span processors) and the log while the module
    is loaded. *)
Record Startup := {
  span_processors : list SpanProcessor;
  s_log : list LogRecord }.

(** [trace.get_tracer_provider().add_span_processor(span_processor)] *)
Definition add_span_processor (span_processor : SpanProcessor) : py Startup unit :=
  modify (fun s =>
    {| span_processors := span_processors s ++ [span_processor];
       s_log := s_log s |}).

Definition logger_warning (msg : list piece) : py Startup unit :=
  modify (fun s =>
    {| span_processors := span_processors s;
       s_log := s_log s ++ [{| levelname := "WARNING"; message := msg |}] |}).

(** The [try] block under [# Configure Jaeger]; the two constructors are
    the library's and may raise. *)
Definition configure_jaeger
    (JaegerExporter : string -> Z -> outcome Exporter)
    (BatchSpanProcessor : Exporter -> outcome SpanProcessor) : py Startup unit :=
  try_except
    (let* jaeger_exporter := (fun s => (JaegerExporter "jaeger" 6831, s)) in
     let* span_processor := (fun s => (BatchSpanProcessor jaeger_exporter, s)) in
     add_span_processor span_processor)
    (fun e =>
     logger_warning [Lit "Failed to initialize Jaeger: "; FStr (exc_message e)]).

End main.

(** ** Worlds used to run the two programs on concrete inputs *)

Module Examples.

(** A clock that starts at 1000 s and advances a tenth of a second from one
    reading to the next. *)
Definition ticking (n : nat) : Qc :=
  (Qc_of_Z 1000 + Qc_of_Z (Z.of_nat n) / Qc_of_Z 10)%Qc.

(** A clock that is set back one second after its first reading. *)
Definition set_back (n : nat) : Qc :=
  match n with
  | O => Qc_of_Z 1000
  | S _ => Qc_of_Z 999
  end.

(** A service that answers every GET with the same status, and one that
    cannot be reached. *)
Definition answers (code : Z) : string -> outcome load_test.Response :=
  fun _ => Returns {| load_test.status_code := code |}.

Definition refuses : string -> outcome load_test.Response :=
  fun _ => Raises {| exc_class := "ConnectionError";
                     exc_message := "Connection refused" |}.

Definition worker (draw : nat) (clock : nat -> Qc)
    (get : string -> outcome load_test.Response) : load_test.Worker :=
  {| load_test.w_draw := draw; load_test.w_time := clock;
     load_test.w_reads := 0; load_test.w_get := get; load_test.w_log := [] |}.

(** The harness started against a service that always answers 200. *)
Definition harness : load_test.Harness :=
  {| load_test.h_time := ticking; load_test.h_reads := 0;
     load_test.h_workers := fun n => worker n ticking (answers 200);
     load_test.h_submitted := 0; load_test.h_log := [];
     load_test.results := load_test.initial_results |}.

(** [total_requests] of the report of a run that completed. *)
Definition reported_total
    (run : option (outcome load_test.Report * load_test.Harness)) : option Z :=
  match run with
  | Some (Returns report, _) =>
      Some (load_test.total_requests (load_test.counters report))
  | _ => None
  end.

(** Two requests: one to a declared route, one to a path no route matches. *)
Definition get_api_data : main.Request :=
  {| main.method := "GET"; main.url_path := "/api/data" |}.

Definition get_user_42 : main.Request :=
  {| main.method := "GET"; main.url_path := "/users/42" |}.

(** The floats 0.1, 0.2 and 0.3 of binary64, and three probes that took
    these durations. *)
Definition f64_0_1 : spec_float := S754_finite false 7205759403792794 (-56).
Definition f64_0_2 : spec_float := S754_finite false 7205759403792794 (-55).
Definition f64_0_3 : spec_float := S754_finite false 5404319552844595 (-54).

Definition took (d : spec_float) : load_test.ProbeResult64 :=
  {| load_test.status64 := 200; load_test.duration64 := d;
     load_test.success64 := true |}.

End Examples.

(** * Properties *)

(** ** Order facts about the comparisons of Python *)

Lemma Qc_ltb_true (x y : Qc) : Qc_ltb x y = true -> (x < y)%Qc.
Proof.
  unfold Qc_ltb. intros H. apply Qclt_alt.
  destruct (x ?= y)%Qc; congruence.
Qed.

Lemma Qc_ltb_false (x y : Qc) : Qc_ltb x y = false -> (y <= x)%Qc.
Proof.
  unfold Qc_ltb. intros H. apply Qcnot_lt_le. intros Hlt.
  rewrite (proj1 (Qclt_alt x y) Hlt) in H. discriminate.
Qed.

Lemma Qc_ltb_lt (x y : Qc) : (x < y)%Qc -> Qc_ltb x y = true.
Proof.
  intros H. unfold Qc_ltb.
  now rewrite (proj1 (Qclt_alt x y) H).
Qed.

Lemma Qc_ltb_ge (x y : Qc) : (y <= x)%Qc -> Qc_ltb x y = false.
Proof.
  intros H. destruct (Qc_ltb x y) eqn:E; [|reflexivity].
  apply Qc_ltb_true in E. now apply Qcle_not_lt in H.
Qed.

(** Turns the boolean comparisons of the context into order facts on the
    underlying rationals and closes the goal with them. *)
Ltac qc_facts :=
  repeat match goal with
  | H : Qc_ltb _ _ = true |- _ => apply Qc_ltb_true in H
  | H : Qc_ltb _ _ = false |- _ => apply Qc_ltb_false in H
  end.

Ltac qc_order :=
  qc_facts;
  first
    [ reflexivity
    | exfalso; unfold Qclt, Qcle in *; lra
    | f_equal; apply Qcle_antisym; unfold Qclt, Qcle in *; lra ].

Lemma py_max_swap (m a b : Qc) :
  py_max (py_max m a) b = py_max (py_max m b) a.
Proof.
  unfold py_max.
  destruct (Qc_ltb m a) eqn:Ema, (Qc_ltb m b) eqn:Emb;
    rewrite ?Ema, ?Emb;
    destruct (Qc_ltb a b) eqn:Eab, (Qc_ltb b a) eqn:Eba;
    rewrite ?Ema, ?Emb; qc_order.
Qed.

Lemma py_min_swap (m : pyfloat) (a b : Qc) :
  py_min (py_min m (Fin a)) (Fin b) = py_min (py_min m (Fin b)) (Fin a).
Proof.
  unfold py_min. destruct m as [m|]; simpl.
  - destruct (Qc_ltb a m) eqn:Ema, (Qc_ltb b m) eqn:Emb; simpl;
      rewrite ?Ema, ?Emb;
      destruct (Qc_ltb a b) eqn:Eab, (Qc_ltb b a) eqn:Eba;
      rewrite ?Ema, ?Emb; qc_order.
  - destruct (Qc_ltb a b) eqn:Eab, (Qc_ltb b a) eqn:Eba; qc_order.
Qed.

(** ** The probe and the aggregator of load_test.py *)

Module LoadTestSpec.
Import load_test.

Lemma random_choice_ENDPOINTS (w : Worker) :
  random_choice ENDPOINTS w = (Returns (chosen w), w).
Proof.
  unfold random_choice, chosen.
  assert (Hlt : (w_draw w mod length ENDPOINTS < length ENDPOINTS)%nat)
    by (apply Nat.mod_upper_bound; discriminate).
  destruct (nth_error ENDPOINTS (w_draw w mod length ENDPOINTS)) as [x|] eqn:E.
  - now rewrite (nth_error_nth _ _ _ E).
  - apply nth_error_None in E. lia.
Qed.

Lemma chosen_in_ENDPOINTS (w : Worker) : In (chosen w) ENDPOINTS.
Proof.
  unfold chosen. apply nth_In. apply Nat.mod_upper_bound. discriminate.
Qed.

(** What [make_request] returns when [requests.get] raises. *)
Lemma make_request_raises (w : Worker) (e : Exception) :
  w_get w (BASE_URL +:+ chosen w) = Raises e ->
  fst (make_request w) = Returns transport_failure.
Proof.
  intros Hget. unfold make_request, bind.
  rewrite random_choice_ENDPOINTS.
  unfold try_except, time_time, requests_get; simpl.
  now rewrite Hget.
Qed.

(** What [make_request] returns when [requests.get] answers. *)
Lemma make_request_returns (w : Worker) (response : Response) :
  w_get w (BASE_URL +:+ chosen w) = Returns response ->
  fst (make_request w) =
    Returns {| status := status_code response;
               duration := (w_time w (S (w_reads w)) - w_time w (w_reads w))%Qc;
               success := status_code response <? 400 |}.
Proof.
  intros Hget. unfold make_request, bind.
  rewrite random_choice_ENDPOINTS.
  unfold try_except, time_time, requests_get; simpl.
  now rewrite Hget.
Qed.

Example make_request_on_200 :
  fst (make_request (Examples.worker 1 Examples.ticking (Examples.answers 200))) =
    Returns {| status := 200;
               duration := (Examples.ticking 1 - Examples.ticking 0)%Qc;
               success := true |}.
Proof. reflexivity. Qed.

Example make_request_on_404 :
  success (probe (Examples.worker 0 Examples.ticking (Examples.answers 404))) = false /\
  success (probe (Examples.worker 0 Examples.ticking (Examples.answers 399))) = true.
Proof. split; reflexivity. Qed.

Example make_request_on_refusal :
  fst (make_request (Examples.worker 0 Examples.ticking Examples.refuses)) =
    Returns {| status := 0; duration := 0%Qc; success := false |}.
Proof. reflexivity. Qed.

(** C3. [make_request] never raises: in every world it returns a result.
    When [requests.get] raises (timeout, refused connection, failed name
    resolution or any other exception) the result has status 0 and success
    false; when a response is received, success is true exactly when the
    status of the response is below 400. *)
Theorem make_request_never_raises (w : Worker) :
  exists r w',
    make_request w = (Returns r, w') /\
    match w_get w (BASE_URL +:+ chosen w) with
    | Raises _ => status r = 0 /\ success r = false
    | Returns response =>
        status r = status_code response /\
        (success r = true <-> status_code response < 400)
    end.
Proof.
  destruct (w_get w (BASE_URL +:+ chosen w)) as [response|e] eqn:Hget.
  - pose proof (make_request_returns w response Hget) as H.
    destruct (make_request w) as [o w'] eqn:E. simpl in H. subst o.
    eexists _, w'. split; [reflexivity|]. simpl. split; [reflexivity|].
    apply Z.ltb_lt.
  - pose proof (make_request_raises w e Hget) as H.
    destruct (make_request w) as [o w'] eqn:E. simpl in H. subst o.
    eexists _, w'. split; [reflexivity|]. now simpl.
Qed.

(** Two results can be folded in either order. *)
Lemma fold_swap (s : LoadStatistics) (a b : ProbeResult) :
  fold (fold s a) b = fold (fold s b) a.
Proof.
  unfold fold; simpl. f_equal.
  - destruct (success a), (success b); lia.
  - destruct (success a), (success b); lia.
  - ring.
  - apply py_min_swap.
  - apply py_max_swap.
Qed.

Lemma fold_left_fold_Permutation (rs rs' : list ProbeResult) :
  Permutation rs rs' ->
  forall s, fold_left fold rs s = fold_left fold rs' s.
Proof.
  induction 1 as [|x l l' _ IH|x y l|l l' l'' _ IH1 _ IH2]; intros s; simpl.
  - reflexivity.
  - apply IH.
  - now rewrite fold_swap.
  - now rewrite IH1, IH2.
Qed.

(** With exact sums, folding the same results in any order, from the
    initial statistics, ends in the same statistics, total_duration
    included. *)
Theorem fold_order_independent (rs rs' : list ProbeResult) :
  Permutation rs rs' ->
  fold_left fold rs initial_results = fold_left fold rs' initial_results.
Proof. intros H. now apply fold_left_fold_Permutation. Qed.

(** C9. Folding a result adds exactly 1 to total_requests and exactly 1 to
    exactly one of successful_requests and failed_requests, so it keeps
    total_requests = successful_requests + failed_requests. *)
Theorem fold_counts (s : LoadStatistics) (r : ProbeResult) :
  total_requests (fold s r) = total_requests s + 1 /\
  (successful_requests (fold s r) = successful_requests s + 1 /\
   failed_requests (fold s r) = failed_requests s
   \/
   successful_requests (fold s r) = successful_requests s /\
   failed_requests (fold s r) = failed_requests s + 1) /\
  (total_requests s = successful_requests s + failed_requests s ->
   total_requests (fold s r) =
     successful_requests (fold s r) + failed_requests (fold s r)).
Proof.
  unfold fold; simpl. destruct (success r).
  - split; [reflexivity|]. split; [left; split; reflexivity|]. lia.
  - split; [reflexivity|]. split; [right; split; reflexivity|]. lia.
Qed.

Lemma fold_left_fold_totals (rs : list ProbeResult) :
  forall s,
    total_requests (fold_left fold rs s) = total_requests s + Z.of_nat (length rs) /\
    successful_requests (fold_left fold rs s) = successful_requests s + count_success rs /\
    total_duration (fold_left fold rs s) = (total_duration s + sum_durations rs)%Qc.
Proof.
  unfold count_success.
  induction rs as [|r rs IH]; intros s.
  - simpl. repeat split; try lia. ring.
  - cbn [fold_left]. destruct (IH (fold s r)) as (Ht & Hs & Hd).
    rewrite Ht, Hs, Hd. cbn [length List.filter sum_durations fold_right].
    unfold fold at 1 2 3; cbn [total_requests successful_requests total_duration].
    repeat split.
    + lia.
    + destruct (success r); cbn [length]; lia.
    + fold (sum_durations rs). ring.
Qed.

(** Ten probes, eight answered 200 and two failed in transport. *)
Example eight_of_ten :
  let ok := {| status := 200; duration := Q2Qc (2 # 10); success := true |} in
  let report :=
    finalize (fold_left fold
                (repeat ok 5 ++ [transport_failure] ++ repeat ok 3 ++ [transport_failure])
                initial_results) in
  total_requests (counters report) = 10 /\
  successful_requests (counters report) = 8 /\
  failed_requests (counters report) = 2 /\
  success_rate report = Qc_of_Z 80 /\
  avg_duration report = Q2Qc (16 # 100) /\
  min_duration (counters report) = Fin 0%Qc /\
  max_duration (counters report) = Q2Qc (2 # 10).
Proof.
  cbv zeta. repeat split; try reflexivity; apply Qc_is_canon; reflexivity.
Qed.

(** C4. After any sequence of folds from the initial statistics, the
    counters hold the number of results, the number of successes and the sum
    of the durations; the report gives avg_duration = total_duration /
    total_requests and success_rate = successful_requests / total_requests *
    100 when total_requests is positive, and 0 for both when it is 0. An
    empty run reports avg_duration 0, success_rate 0, min_duration
    [float('inf')] and max_duration 0. *)
Theorem finalize_report (rs : list ProbeResult) :
  let s := fold_left fold rs initial_results in
  counters (finalize s) = s /\
  total_requests s = Z.of_nat (length rs) /\
  successful_requests s = count_success rs /\
  total_duration s = sum_durations rs /\
  (0 < total_requests s ->
   avg_duration (finalize s) = (total_duration s / Qc_of_Z (total_requests s))%Qc /\
   success_rate (finalize s) =
     (Qc_of_Z (successful_requests s) / Qc_of_Z (total_requests s) * Qc_of_Z 100)%Qc) /\
  (total_requests s = 0 ->
   avg_duration (finalize s) = 0%Qc /\ success_rate (finalize s) = 0%Qc) /\
  (rs = [] ->
   avg_duration (finalize s) = 0%Qc /\ success_rate (finalize s) = 0%Qc /\
   min_duration (counters (finalize s)) = PInf /\
   max_duration (counters (finalize s)) = 0%Qc).
Proof.
  intros s.
  destruct (fold_left_fold_totals rs initial_results) as (Ht & Hs & Hd).
  fold s in Ht, Hs, Hd. simpl in Ht, Hs, Hd.
  assert (Hc : counters (finalize s) = s)
    by (unfold finalize; now destruct (0 <? total_requests s)).
  split; [exact Hc|]. split; [exact Ht|]. split; [exact Hs|].
  split; [rewrite Hd; ring|]. split; [|split].
  - intros Hpos. unfold finalize.
    apply Z.ltb_lt in Hpos. rewrite Hpos. now simpl.
  - intros Hzero. unfold finalize. rewrite Hzero. now simpl.
  - intros ->. subst s. simpl. repeat split.
Qed.

Lemma py_min_nonneg (m : pyfloat) (d : Qc) :
  nonneg m -> (0 <= d)%Qc -> nonneg (py_min m (Fin d)).
Proof.
  intros Hm Hd. unfold py_min. now destruct (pyfloat_ltb (Fin d) m).
Qed.

Lemma py_min_zero (m : pyfloat) : nonneg m -> py_min m (Fin 0%Qc) = Fin 0%Qc.
Proof.
  intros Hm. unfold py_min. destruct m as [q|]; simpl; [|reflexivity].
  simpl in Hm. destruct (Qc_ltb 0 q) eqn:E; [reflexivity|].
  qc_order.
Qed.

Lemma py_min_keeps_zero (d : Qc) :
  (0 <= d)%Qc -> py_min (Fin 0%Qc) (Fin d) = Fin 0%Qc.
Proof.
  intros Hd. unfold py_min; simpl. now rewrite (Qc_ltb_ge d 0 Hd).
Qed.

Lemma fold_left_keeps_zero (rs : list ProbeResult) :
  Forall (fun r => (0 <= duration r)%Qc) rs ->
  forall s, min_duration s = Fin 0%Qc ->
    min_duration (fold_left fold rs s) = Fin 0%Qc.
Proof.
  induction 1 as [|r rs Hr _ IH]; intros s Hs; simpl; [exact Hs|].
  apply IH. simpl. rewrite Hs. now apply py_min_keeps_zero.
Qed.

Lemma fold_left_reaches_zero (rs : list ProbeResult) :
  Forall (fun r => (0 <= duration r)%Qc) rs ->
  In transport_failure rs ->
  forall s, nonneg (min_duration s) ->
    min_duration (fold_left fold rs s) = Fin 0%Qc.
Proof.
  induction 1 as [|r rs Hr Hrs IH]; intros Hin s Hs; [destruct Hin|].
  simpl. destruct Hin as [->|Hin].
  - apply fold_left_keeps_zero; [exact Hrs|].
    simpl. now apply py_min_zero.
  - apply IH; [exact Hin|]. simpl. now apply py_min_nonneg.
Qed.

Lemma probes_durations (ws : list Worker) (rs : list ProbeResult) :
  probes ws rs ->
  Forall (fun w => ~ clock_steps_back w) ws ->
  Forall (fun r => (0 <= duration r)%Qc) rs.
Proof.
  induction 1 as [|w r ws rs Hwr _ IH]; intros Hclock; constructor.
  - apply Forall_inv in Hclock.
    destruct (w_get w (BASE_URL +:+ chosen w)) as [response|e] eqn:Hget.
    + rewrite (make_request_returns w response Hget) in Hwr.
      injection Hwr as <-. simpl.
      apply Qcnot_lt_le in Hclock.
      apply (Qcplus_le_mono_r _ _ (w_time w (w_reads w))).
      rewrite Qcplus_0_l.
      now replace (w_time w (S (w_reads w)) - w_time w (w_reads w)
                   + w_time w (w_reads w))%Qc
        with (w_time w (S (w_reads w))) by ring.
    + rewrite (make_request_raises w e Hget) in Hwr.
      injection Hwr as <-. simpl. apply Qcle_refl.
  - apply IH. now apply Forall_inv_tail in Hclock.
Qed.

(** C10 as stated fails: a refused probe followed by a probe during which
    the clock was set back leaves a negative min_duration. *)
Lemma min_duration_negative_after_transport_failure :
  let ws := [Examples.worker 0 Examples.ticking Examples.refuses;
             Examples.worker 1 Examples.set_back (Examples.answers 200)] in
  let rs := [transport_failure;
             {| status := 200;
                duration := (Examples.set_back 1 - Examples.set_back 0)%Qc;
                success := true |}] in
  probes ws rs /\
  Exists transport_fails ws /\
  min_duration (fold_left fold rs initial_results) <> Fin 0%Qc.
Proof.
  cbv zeta. split; [|split].
  - repeat constructor.
  - constructor. now exists {| exc_class := "ConnectionError";
                               exc_message := "Connection refused" |}.
  - intros H. vm_compute in H. discriminate H.
Qed.

(** C10, amended. A transport failure makes [make_request] return a
    result of duration 0; in a run where some probe failed in transport and
    the clock did not step back during any probe, the final min_duration
    is 0. *)
Theorem min_duration_zero_after_transport_failure
    (ws : list Worker) (rs : list ProbeResult) :
  probes ws rs ->
  Exists transport_fails ws ->
  Forall (fun w => ~ clock_steps_back w) ws ->
  In transport_failure rs /\
  duration transport_failure = 0%Qc /\
  min_duration (fold_left fold rs initial_results) = Fin 0%Qc.
Proof.
  intros Hp Hfail Hclock.
  assert (Hin : In transport_failure rs).
  { clear Hclock. induction Hp as [|w r ws rs Hwr _ IH].
    - inversion Hfail.
    - apply Exists_cons in Hfail as [[e He]|Hfail].
      + left. rewrite (make_request_raises w e He) in Hwr. congruence.
      + right. now apply IH. }
  split; [exact Hin|]. split; [reflexivity|].
  apply fold_left_reaches_zero; [|exact Hin|exact I].
  now apply (probes_durations ws rs).
Qed.

Lemma min_duration_zero_after_transport_failure_witness :
  let ws := [Examples.worker 0 Examples.ticking (Examples.answers 200);
             Examples.worker 1 Examples.ticking Examples.refuses] in
  let rs := [{| status := 200;
                duration := (Examples.ticking 1 - Examples.ticking 0)%Qc;
                success := true |};
             transport_failure] in
  In transport_failure rs /\
  duration transport_failure = 0%Qc /\
  min_duration (fold_left fold rs initial_results) = Fin 0%Qc.
Proof.
  cbv zeta.
  apply (min_duration_zero_after_transport_failure
           [Examples.worker 0 Examples.ticking (Examples.answers 200);
            Examples.worker 1 Examples.ticking Examples.refuses]).
  - repeat constructor.
  - right. left. now exists {| exc_class := "ConnectionError";
                               exc_message := "Connection refused" |}.
  - repeat constructor; intros H; vm_compute in H; discriminate H.
Defined.

Lemma fold_order_independent_witness :
  let a := {| status := 200; duration := Q2Qc (1 # 10); success := true |} in
  let b := {| status := 500; duration := Q2Qc (3 # 10); success := false |} in
  fold_left fold [a; transport_failure; b] initial_results =
  fold_left fold [b; a; transport_failure] initial_results.
Proof.
  cbv zeta. apply fold_order_independent.
  apply Permutation_sym, (Permutation_cons_append [_; _]).
Defined.

Lemma fold_counts_witness :
  total_requests (fold initial_results transport_failure) = 1 /\
  (successful_requests (fold initial_results transport_failure) = 1 /\
   failed_requests (fold initial_results transport_failure) = 0
   \/
   successful_requests (fold initial_results transport_failure) = 0 /\
   failed_requests (fold initial_results transport_failure) = 1) /\
  (0 = 0 + 0 ->
   total_requests (fold initial_results transport_failure) =
     successful_requests (fold initial_results transport_failure)
     + failed_requests (fold initial_results transport_failure)).
Proof. exact (fold_counts initial_results transport_failure). Defined.

End LoadTestSpec.

(** ** The dispatcher of load_test.py *)

Module DispatcherSpec.
Import load_test.
Import LoadTestSpec.

Lemma make_request_probe (w : Worker) : fst (make_request w) = Returns (probe w).
Proof.
  unfold probe.
  destruct (w_get w (BASE_URL +:+ chosen w)) as [response|e] eqn:Hget.
  - now rewrite (make_request_returns w response Hget).
  - now rewrite (make_request_raises w e Hget).
Qed.

Lemma batch_length (workers : nat -> Worker) (n : nat) :
  forall first, length (batch workers first n) = n.
Proof. induction n as [|n IH]; intros first; simpl; [|rewrite IH]; reflexivity. Qed.

(** A batch is exactly [n] submissions, one future per task. *)
Lemma submit_batch_spec (n : nat) :
  forall h,
    submit_batch n h =
      (Returns (map Returns (batch (h_workers h) (h_submitted h) n)), submitted n h).
Proof.
  induction n as [|n IH]; intros h.
  - now destruct h.
  - cbn [submit_batch]. unfold bind at 1. unfold executor_submit at 1.
    unfold bind at 1. rewrite IH. cbn [h_workers h_submitted batch map ret].
    rewrite make_request_probe. unfold submitted; simpl.
    now rewrite Nat.add_succ_r.
Qed.

(** Waiting for the futures of a batch folds each of their results. *)
Lemma collect_all_spec (rs : list ProbeResult) :
  forall h,
    collect_all (map Returns rs) h =
      (Returns tt, with_results (fun s => fold_left fold rs s) h).
Proof.
  induction rs as [|r rs IH]; intros h.
  - now destruct h.
  - cbn [map collect_all]. unfold bind at 1.
    assert (E : collect (Returns r) h =
                (Returns tt, with_results (fun s => fold s r) h)) by reflexivity.
    rewrite E, IH. reflexivity.
Qed.

Lemma turns_frame (n k : nat) :
  forall h,
    h_time (turns k n h) = h_time h /\
    h_reads (turns k n h) = (k + h_reads h)%nat /\
    h_workers (turns k n h) = h_workers h /\
    h_submitted (turns k n h) = (k * n + h_submitted h)%nat /\
    total_requests (results (turns k n h)) =
      total_requests (results h) + Z.of_nat (k * n).
Proof.
  induction k as [|k IH]; intros h.
  - simpl. repeat split. lia.
  - cbn [turns]. destruct (IH (turn n h)) as (Ht & Hr & Hw & Hs & Hn).
    rewrite Ht, Hr, Hw, Hs, Hn. cbn [turn h_time h_reads h_workers h_submitted results].
    destruct (fold_left_fold_totals (batch (h_workers h) (h_submitted h) n) (results h))
      as (Hn' & _).
    rewrite Hn', batch_length. repeat split; lia.
Qed.

Lemma turns_invariant (n k : nat) :
  forall h,
    total_requests (results h) =
      successful_requests (results h) + failed_requests (results h) ->
    total_requests (results (turns k n h)) =
      successful_requests (results (turns k n h))
      + failed_requests (results (turns k n h)).
Proof.
  induction k as [|k IH]; intros h Hinv; [exact Hinv|].
  cbn [turns]. apply IH. cbn [turn results].
  generalize (batch (h_workers h) (h_submitted h) n) as rs.
  intros rs. revert Hinv. generalize (results h) as s.
  induction rs as [|r rs IHrs]; intros s Hs; [exact Hs|].
  cbn [fold_left]. apply IHrs.
  unfold fold; simpl. destruct (success r); lia.
Qed.

(** The loop: as long as the test passes a whole batch is submitted and
    folded; the first test that fails ends it. *)
Lemma while_loop_spec (concurrent_users : Z) (end_time : Qc) (k : nat) :
  forall (extra : nat) (h : Harness),
    (forall i, (i < k)%nat -> (h_time h (i + h_reads h) < end_time)%Qc) ->
    (end_time <= h_time h (k + h_reads h))%Qc ->
    while_loop (S k + extra) concurrent_users end_time h =
      Some (Returns tt, tick (turns k (Z.to_nat concurrent_users) h)).
Proof.
  induction k as [|k IH]; intros extra h Hlt Hge.
  - cbn [Nat.add while_loop]. unfold h_time_time.
    cbn [Nat.add] in Hge. now rewrite (Qc_ltb_ge _ _ Hge).
  - cbn [Nat.add while_loop]. unfold h_time_time.
    pose proof (Hlt 0%nat ltac:(lia)) as H0. cbn [Nat.add] in H0.
    rewrite (Qc_ltb_lt _ _ H0).
    unfold bind at 1. rewrite submit_batch_spec.
    unfold bind at 1. rewrite collect_all_spec.
    cbn [time_sleep ret turns].
    cbn [h_workers h_submitted submitted with_results h_time h_reads h_log results].
    fold (turn (Z.to_nat concurrent_users) h).
    apply (IH extra (turn (Z.to_nat concurrent_users) h)).
    + intros i Hi. cbn [turn h_time h_reads].
      replace (i + S (h_reads h))%nat with (S i + h_reads h)%nat by lia.
      apply Hlt. lia.
    + cbn [turn h_time h_reads].
      now replace (k + S (h_reads h))%nat with (S k + h_reads h)%nat by lia.
Qed.

(** The first test of a sequence of tests that fails. *)
Lemma first_failing (n : nat) :
  forall f : nat -> bool,
    f n = false ->
    exists k, (k <= n)%nat /\ f k = false /\ forall i, (i < k)%nat -> f i = true.
Proof.
  induction n as [|n IH]; intros f Hn.
  - exists 0%nat. repeat split; [lia|exact Hn|lia].
  - destruct (f 0%nat) eqn:E0.
    + destruct (IH (fun i => f (S i)) Hn) as (k & Hk & Hfk & Hbefore).
      exists (S k). repeat split; [lia|exact Hfk|].
      intros [|i] Hi; [exact E0|]. apply Hbefore. lia.
    + exists 0%nat. repeat split; [lia|exact E0|lia].
Qed.

Lemma log_summary_spec (report : Report) (h : Harness) :
  (log_summary report >> ret report) h =
    (Returns report, snd ((log_summary report >> ret report) h)) /\
  h_submitted (snd ((log_summary report >> ret report) h)) = h_submitted h.
Proof. split; reflexivity. Qed.

Lemma run_load_test_started (fuel : nat) (concurrent_users : Z)
    (duration_seconds : Qc) (h : Harness) :
  0 < concurrent_users ->
  run_load_test fuel concurrent_users duration_seconds h =
    match while_loop fuel concurrent_users
            (h_time h (h_reads h) + duration_seconds)%Qc
            (started concurrent_users duration_seconds h) with
    | None => None
    | Some (Raises e, h2) => Some (Raises e, h2)
    | Some (Returns _, h2) =>
        Some ((log_summary (finalize (results h2)) >> ret (finalize (results h2))) h2)
    end.
Proof.
  intros Hpos. unfold run_load_test.
  unfold bind at 1 2 3 4. unfold h_logger_log, modify, h_time_time, ThreadPoolExecutor.
  cbn [with_results h_time h_reads h_workers h_submitted h_log results].
  now rewrite (proj2 (Z.leb_gt concurrent_users 0) Hpos).
Qed.

Lemma batch_app (workers : nat -> Worker) (a b : nat) :
  forall first,
    batch workers first (a + b) =
      batch workers first a ++ batch workers (a + first) b.
Proof.
  induction a as [|a IH]; intros first; [reflexivity|].
  cbn [Nat.add batch app]. rewrite IH. now rewrite Nat.add_succ_r.
Qed.

(** After [k] turns the results folded are those of the [k * n] tasks
    submitted since, in the order of their submission. *)
Lemma turns_results (n k : nat) :
  forall h,
    results (turns k n h) =
      fold_left fold (batch (h_workers h) (h_submitted h) (k * n)) (results h).
Proof.
  induction k as [|k IH]; intros h; [reflexivity|].
  cbn [turns Nat.mul]. rewrite IH. cbn [turn h_workers h_submitted results].
  now rewrite batch_app, fold_left_app.
Qed.

(** A run whose loop test passes [k] times and then fails: it completes,
    having submitted and folded [k] batches of [concurrent_users] tasks. *)
Lemma run_load_test_spec (concurrent_users : Z) (duration_seconds : Qc)
    (h : Harness) (k : nat) :
  0 < concurrent_users ->
  (forall i, (i < k)%nat ->
     (h_time h (i + S (h_reads h)) < h_time h (h_reads h) + duration_seconds)%Qc) ->
  (h_time h (h_reads h) + duration_seconds <= h_time h (k + S (h_reads h)))%Qc ->
  exists report h',
    (forall fuel, (k < fuel)%nat ->
       run_load_test fuel concurrent_users duration_seconds h =
         Some (Returns report, h')) /\
    total_requests (counters report) = concurrent_users * Z.of_nat k /\
    total_requests (counters report) =
      successful_requests (counters report) + failed_requests (counters report) /\
    h_submitted h' = (k * Z.to_nat concurrent_users + h_submitted h)%nat /\
    counters report =
      fold_left fold
        (batch (h_workers h) (h_submitted h) (k * Z.to_nat concurrent_users))
        initial_results.
Proof.
  intros Hpos Hlt Hge.
  set (n := Z.to_nat concurrent_users).
  set (h1 := started concurrent_users duration_seconds h).
  set (h2 := tick (turns k n h1)).
  set (report := finalize (results h2)).
  destruct (turns_frame n k h1) as (_ & _ & _ & Hs & Hn).
  assert (Hc : counters report = results (turns k n h1))
    by (unfold report, finalize; cbn [h2 tick results];
        now destruct (0 <? total_requests (results (turns k n h1)))).
  exists report, (snd ((log_summary report >> ret report) h2)).
  split; [|split; [|split; [|split]]].
  - intros fuel Hfuel. rewrite (run_load_test_started _ _ _ _ Hpos).
    fold h1. replace fuel with (S k + (fuel - S k))%nat by lia.
    rewrite (while_loop_spec concurrent_users _ k (fuel - S k) h1 Hlt Hge).
    fold n. fold h2. fold report.
    now rewrite (proj1 (log_summary_spec report h2)) at 1.
  - rewrite Hc, Hn. cbn [h1 started results initial_results total_requests].
    subst n. rewrite Nat2Z.inj_mul, Z2Nat.id; lia.
  - rewrite Hc. now apply turns_invariant.
  - rewrite (proj2 (log_summary_spec report h2)).
    cbn [h2 tick h_submitted]. rewrite Hs. reflexivity.
  - rewrite Hc, turns_results. reflexivity.
Qed.

(** One second against a service that always answers 200, on a clock that
    advances 0.1 s per reading: nine batches. *)
Example run_one_second :
  Examples.reported_total (run_load_test 20 5 (Qc_of_Z 1) Examples.harness) = Some 45.
Proof. vm_compute. reflexivity. Qed.

Example run_out_of_fuel :
  run_load_test 9 5 (Qc_of_Z 1) Examples.harness = None.
Proof. vm_compute. reflexivity. Qed.

Example run_without_workers :
  fst <$> run_load_test 20 0 (Qc_of_Z 1) Examples.harness =
    Some (Raises {| exc_class := "ValueError";
                    exc_message := "max_workers must be greater than 0" |}).
Proof. reflexivity. Qed.

(** C8 as stated fails: with [duration_seconds = 0] the deadline has passed
    at the first test of the loop, no batch is submitted and the run
    completes with [total_requests = 0]. *)
Lemma run_without_batch :
  Examples.reported_total (run_load_test 1 5 (Qc_of_Z 0) Examples.harness) = Some 0 /\
  ~ 0 < 0.
Proof. split; [vm_compute; reflexivity|lia]. Qed.

(** C8, amended. With five workers, once the clock reaches the deadline
    the run completes. The number of batches is the number of tests of the
    loop that passed before the first one that found the clock at or after
    the deadline; each of them was followed by exactly five submissions,
    and what the report holds is the fold of the results of exactly these
    tasks, five per batch, in the order of their submission. So
    total_requests, like the number of tasks submitted, is five times the
    number of batches; it is positive when the deadline had not passed at
    the first test of the loop. *)
Theorem run_load_test_batches_of_five (duration_seconds : Qc) (h : Harness) :
  (exists n, (h_time h (h_reads h) + duration_seconds
              <= h_time h (n + S (h_reads h)))%Qc) ->
  exists (batches : nat) report h',
    (forall fuel, (batches < fuel)%nat ->
       run_load_test fuel 5 duration_seconds h = Some (Returns report, h')) /\
    (forall i, (i < batches)%nat ->
       (h_time h (i + S (h_reads h)) < h_time h (h_reads h) + duration_seconds)%Qc) /\
    (h_time h (h_reads h) + duration_seconds
     <= h_time h (batches + S (h_reads h)))%Qc /\
    counters report =
      fold_left fold (batch (h_workers h) (h_submitted h) (batches * 5))
        initial_results /\
    length (batch (h_workers h) (h_submitted h) (batches * 5)) = (batches * 5)%nat /\
    total_requests (counters report) = 5 * Z.of_nat batches /\
    h_submitted h' = (batches * 5 + h_submitted h)%nat /\
    ((h_time h (S (h_reads h)) < h_time h (h_reads h) + duration_seconds)%Qc ->
     0 < total_requests (counters report)).
Proof.
  intros [n Hn].
  set (end_time := (h_time h (h_reads h) + duration_seconds)%Qc) in *.
  destruct (first_failing n
              (fun i => Qc_ltb (h_time h (i + S (h_reads h))) end_time)
              (Qc_ltb_ge _ _ Hn)) as (k & _ & Hk & Hbefore).
  assert (Hlt : forall i, (i < k)%nat ->
                  (h_time h (i + S (h_reads h)) < end_time)%Qc)
    by (intros i Hi; apply Qc_ltb_true; now apply Hbefore).
  assert (Hge : (end_time <= h_time h (k + S (h_reads h)))%Qc)
    by now apply Qc_ltb_false.
  destruct (run_load_test_spec 5 duration_seconds h k ltac:(lia) Hlt Hge)
    as (report & h' & Hrun & Ht & _ & Hs & Hc).
  exists k, report, h'.
  split; [exact Hrun|]. split; [exact Hlt|]. split; [exact Hge|].
  split; [exact Hc|]. split; [apply batch_length|].
  split; [exact Ht|]. split; [exact Hs|].
  intros Hfirst. rewrite Ht.
  destruct k as [|k]; [|lia].
  cbn [Nat.add] in Hge. now apply Qcle_not_lt in Hge.
Qed.

Lemma run_load_test_batches_of_five_witness :
  exists (batches : nat) report h',
    (forall fuel, (batches < fuel)%nat ->
       run_load_test fuel 5 (Qc_of_Z 1) Examples.harness = Some (Returns report, h')) /\
    (forall i, (i < batches)%nat ->
       (h_time Examples.harness (i + S (h_reads Examples.harness))
        < h_time Examples.harness (h_reads Examples.harness) + Qc_of_Z 1)%Qc) /\
    (h_time Examples.harness (h_reads Examples.harness) + Qc_of_Z 1
     <= h_time Examples.harness (batches + S (h_reads Examples.harness)))%Qc /\
    counters report =
      fold_left fold
        (batch (h_workers Examples.harness) (h_submitted Examples.harness)
           (batches * 5))
        initial_results /\
    length (batch (h_workers Examples.harness) (h_submitted Examples.harness)
              (batches * 5)) = (batches * 5)%nat /\
    total_requests (counters report) = 5 * Z.of_nat batches /\
    h_submitted h' = (batches * 5 + h_submitted Examples.harness)%nat /\
    ((h_time Examples.harness (S (h_reads Examples.harness))
      < h_time Examples.harness (h_reads Examples.harness) + Qc_of_Z 1)%Qc ->
     0 < total_requests (counters report)).
Proof.
  apply (run_load_test_batches_of_five (Qc_of_Z 1) Examples.harness).
  exists 9%nat. vm_compute. intros H; discriminate H.
Defined.

End DispatcherSpec.

(** ** The middleware of app/main.py *)

Module MainSpec.
Import main.

Lemma monitor_requests_returns (request : Request)
    (call_next : Request -> outcome Response) (response : Response) (a : App) :
  call_next request = Returns response ->
  monitor_requests request call_next a =
    (Returns response, observed request response a).
Proof.
  intros Hnext. unfold monitor_requests, bind, try_except, await, time_time.
  rewrite Hnext. reflexivity.
Qed.

Lemma monitor_requests_raises (request : Request)
    (call_next : Request -> outcome Response) (e : Exception) (a : App) :
  call_next request = Raises e ->
  monitor_requests request call_next a =
    (Returns internal_server_error, errored e a).
Proof.
  intros Hnext. unfold monitor_requests, bind, try_except, await, time_time.
  rewrite Hnext. reflexivity.
Qed.

Lemma serve_cons (request : Request) (call_next : Request -> outcome Response)
    (cycles : list (Request * (Request -> outcome Response))) (a : App) :
  snd (serve ((request, call_next) :: cycles) a) =
    snd (serve cycles (snd (monitor_requests request call_next a))).
Proof.
  cbn [serve]. destruct (monitor_requests request call_next a) as [r a'].
  cbn [snd]. now destruct (serve cycles a').
Qed.

Example root_is_observed :
  let cycle := monitor_requests {| method := "GET"; url_path := "/" |}
                 (fun _ => root) (start Examples.ticking) in
  (status_code <$> match fst cycle with Returns r => Some r | Raises _ => None end)
    = Some 200 /\
  counter_value (snd cycle) "GET" "/" 200 = 1%nat /\
  histogram_count (snd cycle) "GET" "/" = 1%nat /\
  map levelname (a_log (snd cycle)) = ["INFO"%string].
Proof.
  cbv zeta.
  rewrite (monitor_requests_returns _ _
             (JSONResponse 200
                (JObj [("message", JStr "Welcome to the FastAPI Monitoring Demo")]))
             (start Examples.ticking) eq_refl).
  unfold counter_value, histogram_count, observed;
    cbn [snd REQUEST_COUNT REQUEST_LATENCY].
  rewrite !lookup_insert_eq. repeat split.
Qed.

(** C7. When the handler raises, the middleware does not raise: it returns
    the JSON response of status 500 with the detail "Internal Server
    Error". *)
Theorem handler_error_becomes_500 (request : Request)
    (call_next : Request -> outcome Response) (e : Exception) (a : App) :
  call_next request = Raises e ->
  exists a',
    monitor_requests request call_next a = (Returns internal_server_error, a') /\
    status_code internal_server_error = 500.
Proof.
  intros Hnext. rewrite (monitor_requests_raises _ _ e a Hnext).
  eexists. split; reflexivity.
Qed.

Lemma handler_error_becomes_500_witness :
  exists a',
    monitor_requests Examples.get_api_data (fun _ => get_data (Q2Qc (1 # 20)))
      (start Examples.ticking) = (Returns internal_server_error, a') /\
    status_code internal_server_error = 500.
Proof.
  apply (handler_error_becomes_500 Examples.get_api_data
           (fun _ => get_data (Q2Qc (1 # 20)))
           {| exc_class := "ValueError"; exc_message := "Random error occurred" |}).
  reflexivity.
Defined.

(** The middleware itself never raises. *)
Lemma monitor_requests_never_raises (request : Request)
    (call_next : Request -> outcome Response) (a : App) :
  exists response a', monitor_requests request call_next a = (Returns response, a').
Proof.
  destruct (call_next request) as [response|e] eqn:Hnext.
  - rewrite (monitor_requests_returns _ _ response a Hnext). eauto.
  - rewrite (monitor_requests_raises _ _ e a Hnext). eauto.
Qed.

(** C1, at a request whose handler raises. [GET /api/data] with a draw
    below 0.1 makes [get_data] raise; the middleware answers 500 and writes
    one ERROR record, but no child of the counter and no child of the
    histogram exists afterwards: no observation of status 500 is recorded. *)
Theorem raising_handler_records_nothing :
  let cycle := monitor_requests Examples.get_api_data
                 (fun _ => get_data (Q2Qc (1 # 20))) (start Examples.ticking) in
  fst cycle = Returns internal_server_error /\
  REQUEST_COUNT (snd cycle) = ∅ /\
  REQUEST_LATENCY (snd cycle) = ∅ /\
  counter_value (snd cycle) "GET" "/api/data" 500 = 0%nat /\
  histogram_count (snd cycle) "GET" "/api/data" = 0%nat /\
  map levelname (a_log (snd cycle)) = ["ERROR"%string].
Proof.
  cbv zeta.
  rewrite (monitor_requests_raises Examples.get_api_data _
             {| exc_class := "ValueError"; exc_message := "Random error occurred" |}
             (start Examples.ticking) eq_refl).
  repeat split.
Qed.

(** C2 as stated fails: a request to [/users/42], which no route matches,
    is recorded in both metrics under the endpoint [/users/42], which is
    none of the declared path templates. *)
Lemma endpoint_label_is_not_a_template :
  let a := snd (monitor_requests Examples.get_user_42 (fun _ => not_found)
                  (start Examples.ticking)) in
  counter_value a "GET" "/users/42" 404 = 1%nat /\
  histogram_count a "GET" "/users/42" = 1%nat /\
  ~ In "/users/42"%string route_templates.
Proof.
  cbv zeta.
  rewrite (monitor_requests_returns Examples.get_user_42 _
             (JSONResponse 404 (JObj [("detail", JStr "Not Found")]))
             (start Examples.ticking) eq_refl).
  unfold counter_value, histogram_count, observed;
    cbn [snd REQUEST_COUNT REQUEST_LATENCY].
  rewrite !lookup_insert_eq. repeat split.
  intros [H|[H|[H|[]]]]; discriminate H.
Qed.

(** C2, amended. When the handler returns, the child of the counter and the
    child of the histogram that record the request are the ones whose
    endpoint label is [request.url.path], the raw path: those two children
    are updated and every child with another endpoint label is as it was. *)
Theorem endpoint_label_is_raw_path (request : Request)
    (call_next : Request -> outcome Response) (response : Response) (a : App) :
  call_next request = Returns response ->
  let a' := snd (monitor_requests request call_next a) in
  counter_value a' (method request) (url_path request) (status_code response) =
    S (counter_value a (method request) (url_path request) (status_code response)) /\
  histogram_count a' (method request) (url_path request) =
    S (histogram_count a (method request) (url_path request)) /\
  (forall m endpoint status,
     endpoint <> url_path request ->
     REQUEST_COUNT a' !! (m, endpoint, status) = REQUEST_COUNT a !! (m, endpoint, status)) /\
  (forall m endpoint,
     endpoint <> url_path request ->
     REQUEST_LATENCY a' !! (m, endpoint) = REQUEST_LATENCY a !! (m, endpoint)).
Proof.
  intros Hnext. cbv zeta.
  rewrite (monitor_requests_returns _ _ response a Hnext).
  unfold counter_value at 1, histogram_count at 1, observed;
    cbn [snd REQUEST_COUNT REQUEST_LATENCY].
  rewrite !lookup_insert_eq. cbn [from_option id].
  split; [reflexivity|]. split.
  { rewrite length_app. unfold histogram_count. simpl. lia. }
  split.
  - intros m endpoint status Hne. apply lookup_insert_ne. congruence.
  - intros m endpoint Hne. apply lookup_insert_ne. congruence.
Qed.

Lemma endpoint_label_is_raw_path_witness :
  let a' := snd (monitor_requests Examples.get_api_data (fun _ => get_data (Q2Qc (1 # 2)))
                   (start Examples.ticking)) in
  counter_value a' "GET" "/api/data" 200 =
    S (counter_value (start Examples.ticking) "GET" "/api/data" 200) /\
  histogram_count a' "GET" "/api/data" =
    S (histogram_count (start Examples.ticking) "GET" "/api/data") /\
  (forall m endpoint status,
     endpoint <> "/api/data"%string ->
     REQUEST_COUNT a' !! (m, endpoint, status) =
       REQUEST_COUNT (start Examples.ticking) !! (m, endpoint, status)) /\
  (forall m endpoint,
     endpoint <> "/api/data"%string ->
     REQUEST_LATENCY a' !! (m, endpoint) =
       REQUEST_LATENCY (start Examples.ticking) !! (m, endpoint)).
Proof.
  apply (endpoint_label_is_raw_path Examples.get_api_data
           (fun _ => get_data (Q2Qc (1 # 2)))
           (JSONResponse 200
              (JObj [("data", JList [JInt 1; JInt 2; JInt 3; JInt 4; JInt 5])]))
           (start Examples.ticking)).
  reflexivity.
Defined.

(** The histogram child of a method and an endpoint counts the requests to
    them whose handler returned, whatever the status, and only those. *)
Lemma histogram_counts_returned_cycles (m endpoint : string)
    (cycles : list (Request * (Request -> outcome Response))) :
  forall a,
    histogram_count (snd (serve cycles a)) m endpoint =
      (length (List.filter (returned_at m endpoint) cycles)
       + histogram_count a m endpoint)%nat.
Proof.
  induction cycles as [|[request call_next] cycles IH]; intros a; [reflexivity|].
  rewrite serve_cons, IH. cbn [List.filter].
  destruct (call_next request) as [response|e] eqn:Hnext.
  - assert (Hr : returned_at m endpoint (request, call_next) =
                 bool_decide (method request = m /\ url_path request = endpoint))
      by (unfold returned_at; cbn [fst snd]; now rewrite Hnext).
    rewrite Hr, (monitor_requests_returns _ _ response a Hnext). cbn [snd].
    unfold histogram_count, observed. cbn [REQUEST_LATENCY].
    case_bool_decide as Hlabel.
    + destruct Hlabel as [<- <-]. rewrite lookup_insert_eq. cbn [from_option id].
      rewrite length_app. simpl. lia.
    + rewrite lookup_insert_ne; [reflexivity|].
      intros Heq. apply Hlabel. now inversion Heq.
  - assert (Hr : returned_at m endpoint (request, call_next) = false)
      by (unfold returned_at; cbn [fst snd]; now rewrite Hnext).
    now rewrite Hr, (monitor_requests_raises _ _ e a Hnext).
Qed.

(** After [N] identical requests whose handler returned the same status,
    the counter child of their method, path and status and the histogram
    child of their method and path have grown by [N]; from a fresh process
    both are [N]. *)
Lemma metrics_after_identical_successes (N : nat) (request : Request)
    (call_next : Request -> outcome Response) (response : Response) :
  call_next request = Returns response ->
  forall a,
    counter_value (snd (serve (repeat (request, call_next) N) a))
      (method request) (url_path request) (status_code response) =
      (N + counter_value a (method request) (url_path request)
             (status_code response))%nat /\
    histogram_count (snd (serve (repeat (request, call_next) N) a))
      (method request) (url_path request) =
      (N + histogram_count a (method request) (url_path request))%nat.
Proof.
  intros Hnext. induction N as [|N IH]; intros a; [split; reflexivity|].
  cbn [repeat]. rewrite serve_cons, (monitor_requests_returns _ _ response a Hnext).
  cbn [snd]. destruct (IH (observed request response a)) as [Hc Hh].
  rewrite Hc, Hh. unfold counter_value at 1, histogram_count at 1, observed.
  cbn [REQUEST_COUNT REQUEST_LATENCY]. rewrite !lookup_insert_eq.
  cbn [from_option id]. rewrite length_app. unfold histogram_count.
  simpl. split; lia.
Qed.

(** C6, at two requests to the same endpoint of which one raises. Of two
    [GET /api/data], the first answered 200 and the second answered 500
    after [get_data] raised, the histogram child of [GET /api/data] has one
    observation only, and no counter child of status 500 exists. *)
Theorem histogram_misses_raising_requests :
  let cycles := [(Examples.get_api_data, fun _ : Request => get_data (Q2Qc (1 # 2)));
                 (Examples.get_api_data, fun _ : Request => get_data (Q2Qc (1 # 20)))] in
  let served := serve cycles (start Examples.ticking) in
  map (fun r => match r with
                | Returns response => Some (status_code response)
                | Raises _ => None
                end) (fst served) = [Some 200; Some 500] /\
  length cycles = 2%nat /\
  histogram_count (snd served) "GET" "/api/data" = 1%nat /\
  counter_value (snd served) "GET" "/api/data" 200 = 1%nat /\
  counter_value (snd served) "GET" "/api/data" 500 = 0%nat.
Proof.
  cbv zeta. split; [reflexivity|]. split; [reflexivity|]. split.
  - now rewrite histogram_counts_returned_cycles.
  - rewrite !serve_cons.
    rewrite (monitor_requests_returns Examples.get_api_data _
               (JSONResponse 200
                  (JObj [("data", JList [JInt 1; JInt 2; JInt 3; JInt 4; JInt 5])]))
               (start Examples.ticking) eq_refl).
    cbn [snd].
    rewrite (monitor_requests_raises Examples.get_api_data _
               {| exc_class := "ValueError"; exc_message := "Random error occurred" |}
               _ eq_refl).
    unfold counter_value, errored, observed, serve;
      cbn [snd REQUEST_COUNT].
    rewrite lookup_insert_eq, lookup_insert_ne by discriminate.
    split; reflexivity.
Qed.

End MainSpec.

(** * Further properties of the two programs *)

Lemma at_level_app (level : string) (l1 l2 : list LogRecord) :
  at_level level (l1 ++ l2) = at_level level l1 ++ at_level level l2.
Proof. apply List.filter_app. Qed.

(** ** The probe *)

Module ProbeFacts.
Import load_test.
Import LoadTestSpec.

(** A call of [make_request] writes exactly one record after the records
    that were there: an INFO record when a response was received, an ERROR
    record when [requests.get] raised. *)
Theorem make_request_logs_once (w : Worker) :
  exists record,
    w_log (snd (make_request w)) = w_log w ++ [record] /\
    levelname record =
      match w_get w (BASE_URL +:+ chosen w) with
      | Returns _ => "INFO"%string
      | Raises _ => "ERROR"%string
      end.
Proof.
  unfold make_request, bind. rewrite random_choice_ENDPOINTS.
  unfold try_except, time_time, requests_get; cbn [w_get fst snd].
  destruct (w_get w (BASE_URL +:+ chosen w)) as [response|e];
    eexists; split; reflexivity.
Qed.

(** The result of [make_request] depends on the service only through what
    it does with the two URLs of [ENDPOINTS]: two services that agree on
    [BASE_URL + "/"] and [BASE_URL + "/api/data"] give the same result. *)
Theorem make_request_reads_its_endpoints (w : Worker)
    (get : string -> outcome Response) :
  (forall endpoint, In endpoint ENDPOINTS ->
     get (BASE_URL +:+ endpoint) = w_get w (BASE_URL +:+ endpoint)) ->
  fst (make_request (with_get get w)) = fst (make_request w).
Proof.
  intros Hsame.
  assert (Hc : chosen (with_get get w) = chosen w) by reflexivity.
  pose proof (Hsame (chosen w) (chosen_in_ENDPOINTS w)) as Hget.
  destruct (w_get w (BASE_URL +:+ chosen w)) as [response|e] eqn:E.
  - rewrite (make_request_returns w response E).
    now rewrite (make_request_returns (with_get get w) response)
      by (rewrite Hc; exact Hget).
  - rewrite (make_request_raises w e E).
    now rewrite (make_request_raises (with_get get w) e)
      by (rewrite Hc; exact Hget).
Qed.

Lemma make_request_reads_its_endpoints_witness :
  fst (make_request
         (with_get (fun url => if String.eqb url "http://localhost:8000/metrics"
                               then Examples.refuses url
                               else Examples.answers 200 url)
            (Examples.worker 1 Examples.ticking (Examples.answers 200)))) =
  fst (make_request (Examples.worker 1 Examples.ticking (Examples.answers 200))).
Proof.
  apply (make_request_reads_its_endpoints
           (Examples.worker 1 Examples.ticking (Examples.answers 200))).
  intros endpoint [<-|[<-|[]]]; reflexivity.
Defined.

End ProbeFacts.

(** ** The aggregator *)

Module AggregatorFacts.
Import load_test.
Import LoadTestSpec.

Lemma pyfloat_le_refl (x : pyfloat) : pyfloat_le x x.
Proof. destruct x; simpl; [apply Qcle_refl|exact I]. Qed.

Lemma pyfloat_le_trans (x y z : pyfloat) :
  pyfloat_le x y -> pyfloat_le y z -> pyfloat_le x z.
Proof.
  destruct x, y, z; simpl; try tauto. apply Qcle_trans.
Qed.

Lemma py_min_le_l (m : pyfloat) (d : Qc) : pyfloat_le (py_min m (Fin d)) m.
Proof.
  unfold py_min. destruct m as [q|]; simpl; [|exact I].
  destruct (Qc_ltb d q) eqn:E; simpl.
  - now apply Qclt_le_weak, Qc_ltb_true.
  - apply Qcle_refl.
Qed.

Lemma py_min_le_r (m : pyfloat) (d : Qc) : pyfloat_le (py_min m (Fin d)) (Fin d).
Proof.
  unfold py_min. destruct m as [q|]; simpl; [|apply Qcle_refl].
  destruct (Qc_ltb d q) eqn:E; simpl.
  - apply Qcle_refl.
  - now apply Qc_ltb_false.
Qed.

Lemma py_max_ge_l (m d : Qc) : (m <= py_max m d)%Qc.
Proof.
  unfold py_max. destruct (Qc_ltb m d) eqn:E.
  - now apply Qclt_le_weak, Qc_ltb_true.
  - apply Qcle_refl.
Qed.

Lemma py_max_ge_r (m d : Qc) : (d <= py_max m d)%Qc.
Proof.
  unfold py_max. destruct (Qc_ltb m d) eqn:E.
  - apply Qcle_refl.
  - now apply Qc_ltb_false.
Qed.

(** Folding only lowers the running minimum and raises the running
    maximum, and leaves every folded duration between the two. *)
Lemma fold_left_fold_bounds (rs : list ProbeResult) :
  forall s,
    pyfloat_le (min_duration (fold_left fold rs s)) (min_duration s) /\
    (max_duration s <= max_duration (fold_left fold rs s))%Qc /\
    (forall r, In r rs ->
       pyfloat_le (min_duration (fold_left fold rs s)) (Fin (duration r)) /\
       (duration r <= max_duration (fold_left fold rs s))%Qc).
Proof.
  induction rs as [|x rs IH]; intros s.
  - simpl. split; [apply pyfloat_le_refl|]. split; [apply Qcle_refl|]. tauto.
  - cbn [fold_left]. destruct (IH (fold s x)) as (Hmin & Hmax & Hin).
    cbn [fold min_duration max_duration] in Hmin, Hmax.
    split; [|split].
    + eapply pyfloat_le_trans; [exact Hmin|apply py_min_le_l].
    + eapply Qcle_trans; [apply py_max_ge_l|exact Hmax].
    + intros r [<-|Hr]; [|now apply Hin]. split.
      * eapply pyfloat_le_trans; [exact Hmin|apply py_min_le_r].
      * eapply Qcle_trans; [apply py_max_ge_r|exact Hmax].
Qed.

(** Whatever is folded, min_duration is at most every folded duration,
    max_duration is at least every folded duration, and max_duration is
    never negative: it starts at 0 and only grows. *)
Theorem durations_within_min_and_max (rs : list ProbeResult) :
  let s := fold_left fold rs initial_results in
  (0 <= max_duration s)%Qc /\
  forall r, In r rs ->
    pyfloat_le (min_duration s) (Fin (duration r)) /\
    (duration r <= max_duration s)%Qc.
Proof.
  intros s. destruct (fold_left_fold_bounds rs initial_results) as (_ & Hmax & Hin).
  split; [exact Hmax|exact Hin].
Qed.

(** The running minimum and maximum are always values that were seen. *)
Lemma fold_left_fold_attained (rs : list ProbeResult) :
  forall s,
    (min_duration (fold_left fold rs s) = min_duration s \/
     exists r, In r rs /\ min_duration (fold_left fold rs s) = Fin (duration r)) /\
    (max_duration (fold_left fold rs s) = max_duration s \/
     exists r, In r rs /\ max_duration (fold_left fold rs s) = duration r).
Proof.
  induction rs as [|x rs IH]; intros s; [split; now left|].
  cbn [fold_left]. destruct (IH (fold s x)) as (Hmin & Hmax).
  cbn [fold min_duration max_duration] in Hmin, Hmax. split.
  - destruct Hmin as [Hmin|(r & Hr & Hmin)].
    + rewrite Hmin. unfold py_min.
      destruct (pyfloat_ltb (Fin (duration x)) (min_duration s)).
      * right. exists x. split; [now left|reflexivity].
      * now left.
    + right. exists r. split; [now right|exact Hmin].
  - destruct Hmax as [Hmax|(r & Hr & Hmax)].
    + rewrite Hmax. unfold py_max.
      destruct (Qc_ltb (max_duration s) (duration x)).
      * right. exists x. split; [now left|reflexivity].
      * now left.
    + right. exists r. split; [now right|exact Hmax].
Qed.

(** After at least one fold min_duration is the duration of one of the
    folded results (it is no longer [float('inf')]), and max_duration is
    either still 0 or the duration of one of them. *)
Theorem min_and_max_are_attained (rs : list ProbeResult) :
  rs <> [] ->
  let s := fold_left fold rs initial_results in
  (exists r, In r rs /\ min_duration s = Fin (duration r)) /\
  (max_duration s = 0%Qc \/ exists r, In r rs /\ max_duration s = duration r).
Proof.
  intros Hne s. split.
  - destruct rs as [|x rs]; [congruence|]. subst s. cbn [fold_left].
    destruct (fold_left_fold_attained rs (fold initial_results x)) as ([Hmin|Hmin] & _).
    + exists x. split; [now left|]. rewrite Hmin. reflexivity.
    + destruct Hmin as (r & Hr & Hmin). exists r. split; [now right|exact Hmin].
  - destruct (fold_left_fold_attained rs initial_results) as (_ & Hmax). exact Hmax.
Qed.

Lemma min_and_max_are_attained_witness :
  let rs := [{| status := 200; duration := Q2Qc (1 # 10); success := true |};
             transport_failure] in
  let s := fold_left fold rs initial_results in
  (exists r, In r rs /\ min_duration s = Fin (duration r)) /\
  (max_duration s = 0%Qc \/ exists r, In r rs /\ max_duration s = duration r).
Proof.
  apply (min_and_max_are_attained
           [{| status := 200; duration := Q2Qc (1 # 10); success := true |};
            transport_failure]).
  discriminate.
Defined.

Lemma Qcdiv_mul_cancel (x n : Qc) : n <> 0%Qc -> (x / n * n)%Qc = x.
Proof. intros Hn. field. exact Hn. Qed.

Lemma Qc_of_Z_pos (n : Z) : 0 < n -> (0 < Qc_of_Z n)%Qc.
Proof. intros Hn. rewrite <- Z2Qc_inj_0. exact (proj1 (Z2Qc_inj_lt 0 n) Hn). Qed.

Lemma Qc_of_Z_nonzero (n : Z) : 0 < n -> Qc_of_Z n <> 0%Qc.
Proof.
  intros Hn E. rewrite <- Z2Qc_inj_0 in E. apply Z2Qc_inj in E. lia.
Qed.

Lemma count_success_range (rs : list ProbeResult) :
  0 <= count_success rs <= Z.of_nat (length rs).
Proof.
  unfold count_success. split; [lia|].
  apply inj_le. induction rs as [|r rs IH]; simpl; [lia|].
  destruct (success r); simpl; lia.
Qed.

Lemma fold_left_fold_failed (rs : list ProbeResult) :
  forall s,
    failed_requests (fold_left fold rs s) =
      failed_requests s + (Z.of_nat (length rs) - count_success rs).
Proof.
  unfold count_success.
  induction rs as [|r rs IH]; intros s; [simpl; lia|].
  cbn [fold_left]. rewrite IH. cbn [fold failed_requests length List.filter].
  destruct (success r); cbn [length]; lia.
Qed.

(** Whatever is folded, failed_requests is the number of results that are
    not successes (transport failures and answers of status 400 or more
    alike) and the reported success_rate lies between 0 and 100. *)
Theorem success_rate_is_a_percentage (rs : list ProbeResult) :
  let s := fold_left fold rs initial_results in
  failed_requests s = Z.of_nat (length rs) - count_success rs /\
  (0 <= success_rate (finalize s))%Qc /\
  (success_rate (finalize s) <= Qc_of_Z 100)%Qc.
Proof.
  intros s.
  destruct (fold_left_fold_totals rs initial_results) as (Ht & Hs & _).
  fold s in Ht, Hs. simpl in Ht, Hs.
  pose proof (count_success_range rs) as Hrange.
  split; [unfold s; rewrite fold_left_fold_failed; simpl; lia|].
  assert (H100 : (0 <= Qc_of_Z 100)%Qc)
    by (rewrite <- Z2Qc_inj_0; apply (proj1 (Z2Qc_inj_le _ _)); lia).
  unfold finalize. destruct (0 <? total_requests s) eqn:Hpos;
    cbn [success_rate]; [|split; [apply Qcle_refl|exact H100]].
  apply Z.ltb_lt in Hpos.
  set (S := Qc_of_Z (successful_requests s)).
  set (N := Qc_of_Z (total_requests s)).
  assert (HN : (0 < N)%Qc) by now apply Qc_of_Z_pos.
  assert (HN0 : N <> 0%Qc) by now apply Qc_of_Z_nonzero.
  assert (H0 : (0 <= S / N)%Qc).
  { apply (Qcmult_lt_0_le_reg_r _ _ N HN).
    rewrite Qcmult_0_l, Qcdiv_mul_cancel by exact HN0.
    unfold S. rewrite <- Z2Qc_inj_0. apply (proj1 (Z2Qc_inj_le _ _)). lia. }
  assert (H1 : (S / N <= 1)%Qc).
  { apply (Qcmult_lt_0_le_reg_r _ _ N HN).
    rewrite Qcmult_1_l, Qcdiv_mul_cancel by exact HN0.
    unfold S, N. apply (proj1 (Z2Qc_inj_le _ _)). lia. }
  split.
  - rewrite <- (Qcmult_0_l (Qc_of_Z 100)). now apply Qcmult_le_compat_r.
  - rewrite <- (Qcmult_1_l (Qc_of_Z 100)) at 2. now apply Qcmult_le_compat_r.
Qed.

End AggregatorFacts.

(** ** The dispatcher *)

Module HarnessFacts.
Import load_test.
Import LoadTestSpec.
Import DispatcherSpec.



(** One turn of the loop body after a test that passed. *)
Lemma loop_body_spec (n : nat) (seconds : Qc) (h : Harness) :
  (let* futures := submit_batch n in
   collect_all futures >> time_sleep seconds) (tick h) = (Returns tt, turn n h).
Proof.
  unfold bind at 1. rewrite submit_batch_spec.
  unfold bind at 1. rewrite collect_all_spec. reflexivity.
Qed.

(** However much fuel the loop is given, if it ends it ends without
    raising, at the first test that finds the clock at or after the
    deadline, after one whole batch per test that passed. *)
Lemma while_loop_returns (concurrent_users : Z) (end_time : Qc) (fuel : nat) :
  forall h out h',
    while_loop fuel concurrent_users end_time h = Some (out, h') ->
    exists k,
      (k < fuel)%nat /\
      out = Returns tt /\
      h' = tick (turns k (Z.to_nat concurrent_users) h) /\
      (forall i, (i < k)%nat -> (h_time h (i + h_reads h) < end_time)%Qc) /\
      (end_time <= h_time h (k + h_reads h))%Qc.
Proof.
  induction fuel as [|fuel IH]; intros h out h' Hrun; [discriminate Hrun|].
  cbn [while_loop] in Hrun. unfold h_time_time in Hrun.
  destruct (Qc_ltb (h_time h (h_reads h)) end_time) eqn:Htest.
  - change {| h_time := h_time h; h_reads := S (h_reads h);
              h_workers := h_workers h; h_submitted := h_submitted h;
              h_log := h_log h; results := results h |} with (tick h) in Hrun.
    rewrite loop_body_spec in Hrun.
    destruct (IH _ _ _ Hrun) as (k & Hk & Hout & Hh' & Hlt & Hge).
    exists (S k). split; [lia|]. split; [exact Hout|]. split; [exact Hh'|].
    cbn [turn h_time h_reads] in Hlt, Hge. split.
    + intros [|i] Hi; [now apply Qc_ltb_true|].
      replace (S i + h_reads h)%nat with (i + S (h_reads h))%nat by lia.
      apply Hlt. lia.
    + now replace (S k + h_reads h)%nat with (k + S (h_reads h))%nat by lia.
  - injection Hrun as <- <-. exists 0%nat. split; [lia|]. split; [reflexivity|].
    split; [reflexivity|]. split; [lia|]. now apply Qc_ltb_false.
Qed.

Lemma turns_log (n k : nat) : forall h, h_log (turns k n h) = h_log h.
Proof. induction k as [|k IH]; intros h; [reflexivity|]. cbn [turns]. now rewrite IH. Qed.

(** What a run with a positive number of workers leaves when it ends. *)
Lemma run_load_test_returns (fuel : nat) (concurrent_users : Z)
    (duration_seconds : Qc) (h : Harness) out h' :
  0 < concurrent_users ->
  run_load_test fuel concurrent_users duration_seconds h = Some (out, h') ->
  exists k,
    let h2 := tick (turns k (Z.to_nat concurrent_users)
                      (started concurrent_users duration_seconds h)) in
    let report := finalize (results h2) in
    (k < fuel)%nat /\
    out = Returns report /\
    h' = snd ((log_summary report >> ret report) h2) /\
    (forall i, (i < k)%nat ->
       (h_time h (i + S (h_reads h)) < h_time h (h_reads h) + duration_seconds)%Qc) /\
    (h_time h (h_reads h) + duration_seconds <= h_time h (k + S (h_reads h)))%Qc.
Proof.
  intros Hpos Hrun. rewrite (run_load_test_started _ _ _ _ Hpos) in Hrun.
  destruct (while_loop fuel concurrent_users _ _) as [[o h2]|] eqn:Hloop;
    [|discriminate Hrun].
  destruct (while_loop_returns _ _ _ _ _ _ Hloop) as (k & Hk & -> & -> & Hlt & Hge).
  exists k. cbv zeta. split; [exact Hk|].
  rewrite (proj1 (log_summary_spec _ _)) in Hrun. injection Hrun as <- <-.
  split; [reflexivity|]. split; [reflexivity|]. split; [exact Hlt|exact Hge].
Qed.

(** A run with a positive number of workers never raises, and when it ends
    it has stopped at the first test of the loop that found the clock at or
    after the deadline: every earlier test passed and was followed by one
    whole batch, so total_requests and the number of submitted tasks are
    concurrent_users times the number of tests that passed, and
    total_requests = successful_requests + failed_requests. *)
Theorem run_load_test_stops_at_deadline (fuel : nat) (concurrent_users : Z)
    (duration_seconds : Qc) (h : Harness) out h' :
  0 < concurrent_users ->
  run_load_test fuel concurrent_users duration_seconds h = Some (out, h') ->
  exists report (k : nat),
    out = Returns report /\
    total_requests (counters report) = concurrent_users * Z.of_nat k /\
    total_requests (counters report) =
      successful_requests (counters report) + failed_requests (counters report) /\
    h_submitted h' = (k * Z.to_nat concurrent_users + h_submitted h)%nat /\
    (forall i, (i < k)%nat ->
       (h_time h (i + S (h_reads h)) < h_time h (h_reads h) + duration_seconds)%Qc) /\
    (h_time h (h_reads h) + duration_seconds <= h_time h (k + S (h_reads h)))%Qc.
Proof.
  intros Hpos Hrun.
  destruct (run_load_test_returns _ _ _ _ _ _ Hpos Hrun)
    as (k & _ & -> & -> & Hlt & Hge).
  set (n := Z.to_nat concurrent_users).
  set (h1 := started concurrent_users duration_seconds h).
  set (report := finalize (results (tick (turns k n h1)))).
  destruct (turns_frame n k h1) as (_ & _ & _ & Hs & Hn).
  assert (Hc : counters report = results (turns k n h1))
    by (unfold report, finalize; cbn [tick results];
        now destruct (0 <? total_requests (results (turns k n h1)))).
  exists report, k. split; [reflexivity|]. rewrite Hc.
  split; [|split; [|split; [|split; [exact Hlt|exact Hge]]]].
  - rewrite Hn. cbn [h1 started results initial_results total_requests].
    subst n. rewrite Nat2Z.inj_mul, Z2Nat.id; lia.
  - now apply turns_invariant.
  - rewrite (proj2 (log_summary_spec report _)). cbn [tick h_submitted].
    rewrite Hs. reflexivity.
Qed.

Lemma run_load_test_stops_at_deadline_witness :
  exists out h',
    run_load_test 3 5 (Q2Qc (1 # 5)) Examples.harness = Some (out, h') /\
    exists report (k : nat),
      out = Returns report /\
      total_requests (counters report) = 5 * Z.of_nat k /\
      total_requests (counters report) =
        successful_requests (counters report) + failed_requests (counters report) /\
      h_submitted h' = (k * Z.to_nat 5 + h_submitted Examples.harness)%nat /\
      (forall i, (i < k)%nat ->
         (h_time Examples.harness (i + S (h_reads Examples.harness))
          < h_time Examples.harness (h_reads Examples.harness) + Q2Qc (1 # 5))%Qc) /\
      (h_time Examples.harness (h_reads Examples.harness) + Q2Qc (1 # 5)
       <= h_time Examples.harness (k + S (h_reads Examples.harness)))%Qc.
Proof.
  destruct (run_load_test 3 5 (Q2Qc (1 # 5)) Examples.harness) as [[out h']|] eqn:Hrun;
    [|vm_compute in Hrun; discriminate Hrun].
  exists out, h'. split; [reflexivity|].
  apply (run_load_test_stops_at_deadline 3 5 (Q2Qc (1 # 5)) Examples.harness out h');
    [reflexivity|exact Hrun].
Defined.

Lemma log_summary_levels (report : Report) (h : Harness) :
  map levelname (h_log (snd ((log_summary report >> ret report) h))) =
    map levelname (h_log h) ++ repeat "INFO"%string 8.
Proof.
  destruct h as [clock reads workers submitted log stats].
  cbv [log_summary bind h_logger_log modify ret snd h_log h_time h_reads
       h_workers h_submitted results].
  rewrite !map_app, <- !app_assoc. reflexivity.
Qed.

(** The log of a run that ends has gained exactly nine records, all of
    level INFO: the line that announces the run and the eight lines of the
    summary. No ERROR record is written by the loop, since no task raises. *)
Theorem run_load_test_logs_summary (fuel : nat) (concurrent_users : Z)
    (duration_seconds : Qc) (h : Harness) out h' :
  0 < concurrent_users ->
  run_load_test fuel concurrent_users duration_seconds h = Some (out, h') ->
  map levelname (h_log h') =
    map levelname (h_log h) ++ repeat "INFO"%string 9.
Proof.
  intros Hpos Hrun.
  destruct (run_load_test_returns _ _ _ _ _ _ Hpos Hrun) as (k & _ & _ & -> & _).
  rewrite log_summary_levels. unfold tick at 1. cbn [h_log].
  rewrite turns_log. unfold started. cbn [h_log].
  rewrite map_app, <- app_assoc. reflexivity.
Qed.

Lemma run_load_test_logs_summary_witness :
  exists out h',
    run_load_test 3 5 (Q2Qc (1 # 5)) Examples.harness = Some (out, h') /\
    map levelname (h_log h') =
      map levelname (h_log Examples.harness) ++ repeat "INFO"%string 9.
Proof.
  destruct (run_load_test 3 5 (Q2Qc (1 # 5)) Examples.harness) as [[out h']|] eqn:Hrun;
    [|vm_compute in Hrun; discriminate Hrun].
  exists out, h'. split; [reflexivity|].
  apply (run_load_test_logs_summary 3 5 (Q2Qc (1 # 5)) Examples.harness out h');
    [reflexivity|exact Hrun].
Defined.

(** With no worker, or a negative number of workers, the run raises the
    ValueError of the executor whatever the duration, before the loop:
    nothing is submitted and no summary is logged. *)
Theorem run_load_test_needs_workers (fuel : nat) (concurrent_users : Z)
    (duration_seconds : Qc) (h : Harness) :
  concurrent_users <= 0 ->
  exists h',
    run_load_test fuel concurrent_users duration_seconds h =
      Some (Raises {| exc_class := "ValueError";
                      exc_message := "max_workers must be greater than 0" |}, h') /\
    h_submitted h' = h_submitted h /\
    results h' = initial_results /\
    length (h_log h') = S (length (h_log h)).
Proof.
  intros Hle. unfold run_load_test.
  unfold bind at 1 2 3 4. unfold h_logger_log, modify, h_time_time, ThreadPoolExecutor.
  cbn [with_results h_time h_reads h_workers h_submitted h_log results].
  rewrite (proj2 (Z.leb_le concurrent_users 0) Hle). cbn [raise].
  eexists. split; [reflexivity|]. cbn [h_submitted results h_log].
  rewrite length_app. simpl. repeat split. lia.
Qed.

Lemma run_load_test_needs_workers_witness :
  exists h',
    run_load_test 3 0 (Qc_of_Z 300) Examples.harness =
      Some (Raises {| exc_class := "ValueError";
                      exc_message := "max_workers must be greater than 0" |}, h') /\
    h_submitted h' = h_submitted Examples.harness /\
    results h' = initial_results /\
    length (h_log h') = S (length (h_log Examples.harness)).
Proof.
  apply (run_load_test_needs_workers 3 0 (Qc_of_Z 300) Examples.harness). lia.
Defined.

End HarnessFacts.

(** ** The middleware *)

Module MiddlewareFacts.
Import main.
Import MainSpec.

(** The service never raises and answers every request: the client of a
    cycle receives the response of the handler, unchanged, when the handler
    returns (whatever its status), and the fixed 500 response when it
    raises; the responses come in the order of the requests. *)
Theorem serve_answers_every_cycle
    (cycles : list (Request * (Request -> outcome Response))) :
  forall a, fst (serve cycles a) = map answer cycles.
Proof.
  induction cycles as [|[request call_next] cycles IH]; intros a; [reflexivity|].
  cbn [serve map]. unfold answer at 1. cbn [fst snd].
  destruct (call_next request) as [response|e] eqn:Hnext.
  - rewrite (monitor_requests_returns _ _ response a Hnext).
    specialize (IH (observed request response a)).
    destruct (serve cycles _) as [rs a'']. cbn [fst] in *. now rewrite IH.
  - rewrite (monitor_requests_raises _ _ e a Hnext).
    specialize (IH (errored e a)).
    destruct (serve cycles _) as [rs a'']. cbn [fst] in *. now rewrite IH.
Qed.

(** The counter child of a method, an endpoint and a status counts the
    requests with that method and path whose handler returned a response of
    that status, and only those. *)
Lemma counter_counts_returned_cycles (m endpoint : string) (status : Z)
    (cycles : list (Request * (Request -> outcome Response))) :
  forall a,
    counter_value (snd (serve cycles a)) m endpoint status =
      (length (List.filter (returned_with m endpoint status) cycles)
       + counter_value a m endpoint status)%nat.
Proof.
  induction cycles as [|[request call_next] cycles IH]; intros a; [reflexivity|].
  rewrite serve_cons, IH. cbn [List.filter].
  destruct (call_next request) as [response|e] eqn:Hnext.
  - assert (Hr : returned_with m endpoint status (request, call_next) =
                 bool_decide (method request = m /\ url_path request = endpoint
                              /\ status_code response = status))
      by (unfold returned_with; cbn [fst snd]; now rewrite Hnext).
    rewrite Hr, (monitor_requests_returns _ _ response a Hnext). cbn [snd].
    unfold counter_value at 1, observed. cbn [REQUEST_COUNT].
    case_bool_decide as Hlabel.
    + destruct Hlabel as (<- & <- & <-). rewrite lookup_insert_eq.
      cbn [from_option id length]. lia.
    + rewrite lookup_insert_ne; [reflexivity|].
      intros Heq. apply Hlabel. now inversion Heq.
  - assert (Hr : returned_with m endpoint status (request, call_next) = false)
      by (unfold returned_with; cbn [fst snd]; now rewrite Hnext).
    now rewrite Hr, (monitor_requests_raises _ _ e a Hnext).
Qed.

(** From a fresh process, after any requests, the counter child of a
    method, an endpoint and a status holds the number of requests with that
    method and path that were answered by the handler with that status; the
    requests whose handler raised are in no child. *)
Theorem counter_after_serving (m endpoint : string) (status : Z)
    (cycles : list (Request * (Request -> outcome Response))) (clock : nat -> Qc) :
  counter_value (snd (serve cycles (start clock))) m endpoint status =
    length (List.filter (returned_with m endpoint status) cycles).
Proof.
  rewrite counter_counts_returned_cycles.
  unfold counter_value at 1, start. cbn [REQUEST_COUNT].
  rewrite lookup_empty. cbn [from_option]. lia.
Qed.

(** From a fresh process, after any requests, no counter child holds more
    than the histogram child of its method and endpoint has observations. *)
Theorem counter_at_most_histogram (m endpoint : string) (status : Z)
    (cycles : list (Request * (Request -> outcome Response))) (clock : nat -> Qc) :
  (counter_value (snd (serve cycles (start clock))) m endpoint status
   <= histogram_count (snd (serve cycles (start clock))) m endpoint)%nat.
Proof.
  rewrite counter_counts_returned_cycles, histogram_counts_returned_cycles.
  apply Nat.add_le_mono;
    [|unfold counter_value, histogram_count, start;
      cbn [REQUEST_COUNT REQUEST_LATENCY]; rewrite !lookup_empty; reflexivity].
  induction cycles as [|cycle cycles IH]; [reflexivity|].
  cbn [List.filter]. unfold returned_with at 1, returned_at at 1.
  destruct (cycle.2 cycle.1) as [response|e]; [|exact IH].
  repeat case_bool_decide; cbn [length]; try lia. tauto.
Qed.

(** Every cycle leaves exactly one record in the log: an INFO record when
    the handler returned, an ERROR record when it raised. *)
Theorem serve_logs_once_per_cycle
    (cycles : list (Request * (Request -> outcome Response))) :
  forall a,
    length (a_log (snd (serve cycles a))) = (length (a_log a) + length cycles)%nat /\
    length (at_level "INFO" (a_log (snd (serve cycles a)))) =
      (length (at_level "INFO" (a_log a)) + length (List.filter returned cycles))%nat /\
    length (at_level "ERROR" (a_log (snd (serve cycles a)))) =
      (length (at_level "ERROR" (a_log a))
       + (length cycles - length (List.filter returned cycles)))%nat.
Proof.
  induction cycles as [|[request call_next] cycles IH]; intros a.
  - simpl. repeat split; lia.
  - rewrite serve_cons. cbn [List.filter length].
    pose proof (List.filter_length_le returned cycles) as Hle.
    destruct (call_next request) as [response|e] eqn:Hnext.
    + assert (Hr : returned (request, call_next) = true)
        by (unfold returned; cbn [fst snd]; now rewrite Hnext).
      rewrite Hr, (monitor_requests_returns _ _ response a Hnext). cbn [snd length].
      destruct (IH (observed request response a)) as (Hall & Hinfo & Herr).
      rewrite Hall, Hinfo, Herr. unfold observed; cbn [a_log].
      rewrite !at_level_app, !length_app.
      match goal with |- context [length (at_level "INFO" [?r])] =>
        change (length (at_level "INFO" [r])) with 1%nat;
        change (length (at_level "ERROR" [r])) with 0%nat end.
      cbn [length]. repeat split; lia.
    + assert (Hr : returned (request, call_next) = false)
        by (unfold returned; cbn [fst snd]; now rewrite Hnext).
      rewrite Hr, (monitor_requests_raises _ _ e a Hnext). cbn [snd].
      destruct (IH (errored e a)) as (Hall & Hinfo & Herr).
      rewrite Hall, Hinfo, Herr. unfold errored; cbn [a_log].
      rewrite !at_level_app, !length_app.
      match goal with |- context [length (at_level "INFO" [?r])] =>
        change (length (at_level "INFO" [r])) with 0%nat;
        change (length (at_level "ERROR" [r])) with 1%nat end.
      cbn [length]. repeat split; lia.
Qed.

(** Serving requests never lowers a counter child or the number of
    observations of a histogram child. *)
Theorem metrics_never_decrease (m endpoint : string) (status : Z)
    (cycles : list (Request * (Request -> outcome Response))) (a : App) :
  (counter_value a m endpoint status
   <= counter_value (snd (serve cycles a)) m endpoint status)%nat /\
  (histogram_count a m endpoint
   <= histogram_count (snd (serve cycles a)) m endpoint)%nat.
Proof.
  rewrite counter_counts_returned_cycles, histogram_counts_returned_cycles.
  split; lia.
Qed.

(** A request to [/api/data] through the middleware, for every draw of
    [random.random()]: below 0.1 the client receives the 500 response and
    neither metric changes; from 0.1 on the client receives 200 and the
    request is counted under status 200 and observed once. *)
Theorem get_data_through_middleware (draw : Qc) (a : App) :
  let cycle := monitor_requests Examples.get_api_data (fun _ => get_data draw) a in
  ((draw < Q2Qc (1 # 10))%Qc ->
   fst cycle = Returns internal_server_error /\
   REQUEST_COUNT (snd cycle) = REQUEST_COUNT a /\
   REQUEST_LATENCY (snd cycle) = REQUEST_LATENCY a) /\
  ((Q2Qc (1 # 10) <= draw)%Qc ->
   (exists response, fst cycle = Returns response /\ status_code response = 200) /\
   counter_value (snd cycle) "GET" "/api/data" 200 =
     S (counter_value a "GET" "/api/data" 200) /\
   histogram_count (snd cycle) "GET" "/api/data" =
     S (histogram_count a "GET" "/api/data")).
Proof.
  cbv zeta. split.
  - intros Hlt.
    rewrite (monitor_requests_raises Examples.get_api_data _
               {| exc_class := "ValueError"; exc_message := "Random error occurred" |} a)
      by (unfold get_data; now rewrite (Qc_ltb_lt _ _ Hlt)).
    repeat split.
  - intros Hge.
    rewrite (monitor_requests_returns Examples.get_api_data _
               (JSONResponse 200
                  (JObj [("data", JList [JInt 1; JInt 2; JInt 3; JInt 4; JInt 5])])) a)
      by (unfold get_data; now rewrite (Qc_ltb_ge _ _ Hge)).
    split; [eexists; split; reflexivity|].
    unfold counter_value at 1, histogram_count at 1, observed.
    cbn [snd REQUEST_COUNT REQUEST_LATENCY Examples.get_api_data method url_path
         status_code JSONResponse].
    rewrite !lookup_insert_eq. cbn [from_option id].
    split; [reflexivity|]. rewrite length_app. unfold histogram_count. simpl. lia.
Qed.

Lemma get_data_through_middleware_witness :
  let cycle := monitor_requests Examples.get_api_data
                 (fun _ => get_data (Q2Qc (1 # 10))) (start Examples.ticking) in
  (exists response, fst cycle = Returns response /\ status_code response = 200) /\
  counter_value (snd cycle) "GET" "/api/data" 200 =
    S (counter_value (start Examples.ticking) "GET" "/api/data" 200) /\
  histogram_count (snd cycle) "GET" "/api/data" =
    S (histogram_count (start Examples.ticking) "GET" "/api/data").
Proof.
  apply (get_data_through_middleware (Q2Qc (1 # 10)) (start Examples.ticking)).
  vm_compute. intros H; discriminate H.
Defined.

(** The latency observed for a request whose handler returns is the second
    reading of the clock minus the first, as it is: when the clock was set
    back in between, a negative latency is observed. *)
Theorem observed_latency_is_not_clamped (request : Request)
    (call_next : Request -> outcome Response) (response : Response) (a : App) :
  call_next request = Returns response ->
  let latency := (a_time a (S (a_reads a)) - a_time a (a_reads a))%Qc in
  REQUEST_LATENCY (snd (monitor_requests request call_next a))
    !! (method request, url_path request) =
    Some (default [] (REQUEST_LATENCY a !! (method request, url_path request))
          ++ [latency]) /\
  ((latency < 0)%Qc <-> (a_time a (S (a_reads a)) < a_time a (a_reads a))%Qc).
Proof.
  intros Hnext latency.
  rewrite (monitor_requests_returns _ _ response a Hnext).
  unfold observed; cbn [snd REQUEST_LATENCY]. rewrite lookup_insert_eq.
  split; [reflexivity|]. unfold latency.
  rewrite (Qcplus_lt_mono_r _ 0 (a_time a (a_reads a))), Qcplus_0_l.
  now replace (a_time a (S (a_reads a)) - a_time a (a_reads a) + a_time a (a_reads a))%Qc
    with (a_time a (S (a_reads a))) by ring.
Qed.

Lemma observed_latency_is_not_clamped_witness :
  let a := start Examples.set_back in
  let latency := (a_time a (S (a_reads a)) - a_time a (a_reads a))%Qc in
  REQUEST_LATENCY (snd (monitor_requests {| method := "GET"; url_path := "/" |}
                          (fun _ => root) a))
    !! ("GET"%string, "/"%string) =
    Some (default [] (REQUEST_LATENCY a !! ("GET"%string, "/"%string)) ++ [latency]) /\
  ((latency < 0)%Qc <-> (a_time a (S (a_reads a)) < a_time a (a_reads a))%Qc).
Proof.
  apply (observed_latency_is_not_clamped {| method := "GET"; url_path := "/" |}
           (fun _ => root)
           (JSONResponse 200
              (JObj [("message", JStr "Welcome to the FastAPI Monitoring Demo")]))
           (start Examples.set_back)).
  reflexivity.
Defined.

End MiddlewareFacts.

(** ** The configuration of Jaeger *)

Module StartupFacts.
Import main.

(** Loading the module never fails on Jaeger: when the exporter or the span
    processor cannot be built, the tracer provider keeps its span
    processors and one WARNING record is written; when both are built, the
    span processor is added after the ones that were there and nothing is
    logged. *)
Theorem configure_jaeger_degrades
    (JaegerExporter : string -> Z -> outcome Exporter)
    (BatchSpanProcessor : Exporter -> outcome SpanProcessor) (s : Startup) :
  exists s',
    configure_jaeger JaegerExporter BatchSpanProcessor s = (Returns tt, s') /\
    let kept e :=
      span_processors s' = span_processors s /\
      s_log s' = s_log s ++
        [{| levelname := "WARNING";
            message := [Lit "Failed to initialize Jaeger: ";
                        FStr (exc_message e)] |}] in
    match JaegerExporter "jaeger" 6831 with
    | Returns exporter =>
        match BatchSpanProcessor exporter with
        | Returns span_processor =>
            span_processors s' = span_processors s ++ [span_processor] /\
            s_log s' = s_log s
        | Raises e => kept e
        end
    | Raises e => kept e
    end.
Proof.
  unfold configure_jaeger, try_except, bind.
  destruct (JaegerExporter "jaeger" 6831) as [exporter|e].
  - destruct (BatchSpanProcessor exporter) as [span_processor|e];
      eexists; split; try reflexivity; split; reflexivity.
  - eexists; split; try reflexivity; split; reflexivity.
Qed.

End StartupFacts.

(** ** The aggregation on binary64 floats *)

Module Binary64Spec.
Import load_test.

















(** On binary64 the three probes of 0.1 s, 0.2 s and 0.3 s sum to
    0.6000000000000001 in this order and to 0.6 in the reverse order. *)
Example sum_of_three_probes :
  total_duration64
    (fold_left fold64
       [Examples.took Examples.f64_0_1; Examples.took Examples.f64_0_2;
        Examples.took Examples.f64_0_3] initial_results64) =
    S754_finite false 5404319552844596 (-53) /\
  total_duration64
    (fold_left fold64
       [Examples.took Examples.f64_0_3; Examples.took Examples.f64_0_2;
        Examples.took Examples.f64_0_1] initial_results64) =
    S754_finite false 5404319552844595 (-53).
Proof. split; vm_compute; reflexivity. Qed.




(** Without the condition on the durations the minimum itself depends on
    the order: [min] keeps the first of 0.0 and -0.0, which compare equal. *)
Example min_of_the_two_zeros :
  f64_min (f64_min (S754_infinity false) (S754_zero false)) (S754_zero true)
    = S754_zero false /\
  f64_min (f64_min (S754_infinity false) (S754_zero true)) (S754_zero false)
    = S754_zero true.
Proof. split; reflexivity. Qed.

End Binary64Spec.
